(** * IOHClustering: the problem builder of [cluster_base.py]

    A shallow embedding of [src/iohclustering/cluster_base.py] and the
    properties its specification states about it.

    Conventions of the model.
    - Python exceptions are values of [exn]; a call that may raise returns a
      [result].
    - Real-valued inputs (dataset entries, search points) are exact rationals
      [Qc]: rounding is left out, so "equal up to floating-point tolerance"
      reads as equality.  The quotient of the normalisation is a [float],
      which keeps what IEEE division does with a zero divisor: [0/0] is
      [NaN] and [q/0] is an infinity (signed zeros are left out).
    - A two-dimensional array is the list of its rows; the column count of a
      dataset is the length of its first row, and every row of an [ndarray]
      has that length ([is_matrix]).
    - The modules [cluster_metrics] and [cluster_baseline_problems] are not
      part of the sources at hand: their tables [CLUSTER_METRICS],
      [CLUSTER_BASELINE_DATASETS] and [BASELINE_K_DIMENTIONS] are section
      variables. *)

From Stdlib Require Import String Ascii DecimalString.
From Stdlib Require Import QArith Qcanon ZArith Bool Lia Lqa List.
Import ListNotations.

Set Implicit Arguments.

Local Open Scope string_scope.

(** ** Exceptions and results *)

Inductive exn : Type :=
| ValueError (msg : string)   (* [raise ValueError(...)] of the module itself *)
| KeyError (key : string)     (* a subscript on a dict that lacks the key *)
| NumpyError (what : string)  (* an exception raised inside numpy *)
| OSError (path : string)     (* a path that cannot be opened or created *)
| FetchError (what : string). (* [urllib.error.URLError], [tarfile.TarError] *)

Inductive result (A : Type) : Type :=
| Ok (a : A)
| Raise (e : exn).

Arguments Ok {A} a.
Arguments Raise {A} e.

Definition bind {A B : Type} (c : result A) (f : A -> result B) : result B :=
  match c with
  | Ok a => f a
  | Raise e => Raise e
  end.

Notation "x <- c ;; k" := (bind c (fun x => k))
  (at level 61, c at next level, right associativity).
Notation "' pat <- c ;; k" := (bind c (fun x => match x with pat => k end))
  (at level 61, pat pattern, c at next level, right associativity).

Definition is_ok {A : Type} (c : result A) : bool :=
  match c with Ok _ => true | Raise _ => false end.

(** ** Numbers *)

Module Float.

Inductive float : Type :=
| Fin (q : Qc)
| PInf
| NInf
| NaN.

Definition sign_inf (c : comparison) : float :=
  match c with Gt => PInf | Lt => NInf | Eq => NaN end.

Definition sgn (x : float) : comparison :=
  match x with
  | Fin q => (q ?= 0)%Qc
  | PInf => Gt
  | NInf => Lt
  | NaN => Eq
  end.

Definition add (x y : float) : float :=
  match x, y with
  | NaN, _ | _, NaN => NaN
  | Fin a, Fin b => Fin (a + b)
  | PInf, NInf | NInf, PInf => NaN
  | PInf, _ | _, PInf => PInf
  | NInf, _ | _, NInf => NInf
  end.

Definition opp (x : float) : float :=
  match x with
  | Fin a => Fin (- a)
  | PInf => NInf
  | NInf => PInf
  | NaN => NaN
  end.

Definition sub (x y : float) : float := add x (opp y).

Definition mul (x y : float) : float :=
  match x, y with
  | NaN, _ | _, NaN => NaN
  | Fin a, Fin b => Fin (a * b)
  | _, _ =>
      match sgn x, sgn y with
      | Eq, _ | _, Eq => NaN
      | Gt, Gt | Lt, Lt => PInf
      | _, _ => NInf
      end
  end.

(** [a / b] on reals, as the array library divides: a zero divisor gives
    [NaN] under a zero dividend and an infinity otherwise. *)
Definition divq (a b : Qc) : float :=
  if Qc_eq_dec b 0 then sign_inf (a ?= 0)%Qc else Fin (a / b).

Definition div (x y : float) : float :=
  match x, y with
  | NaN, _ | _, NaN => NaN
  | Fin a, Fin b => divq a b
  | Fin _, _ => Fin 0
  | _, Fin b => match (b ?= 0)%Qc with Lt => opp x | _ => x end
  | _, _ => NaN
  end.

(** [np.minimum]: a [NaN] operand wins. *)
Definition minimum (x y : float) : float :=
  match x, y with
  | NaN, _ | _, NaN => NaN
  | NInf, _ | _, NInf => NInf
  | PInf, z | z, PInf => z
  | Fin a, Fin b => match (a ?= b)%Qc with Gt => Fin b | _ => Fin a end
  end.

Definition is_nan (x : float) : bool :=
  match x with NaN => true | _ => false end.

End Float.

Import Float.

Definition Qcmin (a b : Qc) : Qc :=
  match (a ?= b)%Qc with Gt => b | _ => a end.

Definition Qcmax (a b : Qc) : Qc :=
  match (a ?= b)%Qc with Lt => b | _ => a end.

(** [f"{n}"] for an [int]. *)
Definition str (n : Z) : string := NilZero.string_of_int (Z.to_int n).

(** ** Arrays *)

(** Zip two rows with [f]; the rows of one array have one length. *)
Fixpoint map2 {A B C : Type} (f : A -> B -> C) (xs : list A) (ys : list B)
  : list C :=
  match xs, ys with
  | x :: xs', y :: ys' => f x y :: map2 f xs' ys'
  | _, _ => []
  end.

Section Arrays.

Variable A : Type.

(** An elementwise binary operator on two one-dimensional arrays, with
    numpy's broadcasting: equal lengths, or one operand of length one. *)
Definition broadcast (f : A -> A -> A) (xs ys : list A) : result (list A) :=
  if (length xs =? length ys)%nat then Ok (map2 f xs ys)
  else match xs, ys with
       | [x], _ => Ok (map (f x) ys)
       | _, [y] => Ok (map (fun x => f x y) xs)
       | _, _ => Raise (NumpyError "operands could not be broadcast together")
       end.

(** [np.tile(v, k)] for a one-dimensional [v]: an empty [v] is returned
    as it is, a negative repeat count is refused. *)
Definition tile (v : list A) (k : Z) : result (list A) :=
  match v with
  | [] => Ok []
  | _ => if (k <? 0)%Z
         then Raise (NumpyError "repeats may not contain negative values.")
         else Ok (concat (repeat v (Z.to_nat k)))
  end.

(** The rows of a flat array read in row-major order. *)
Fixpoint rows_of (r c : nat) (x : list A) : list (list A) :=
  match r with
  | O => []
  | S r' => firstn c x :: rows_of r' c (skipn c x)
  end.

(** [x.reshape(r, c)] with both dimensions given. *)
Definition reshape (r c : Z) (x : list A) : result (list (list A)) :=
  if ((r <? 0) || (c <? 0))%Z
  then Raise (NumpyError "negative dimensions not allowed")
  else if (Z.of_nat (length x) =? r * c)%Z
       then Ok (rows_of (Z.to_nat r) (Z.to_nat c) x)
       else Raise (NumpyError "cannot reshape array").

(** [x.reshape(r, -1)]: the column count is inferred from the size. *)
Definition reshape_rows (r : Z) (x : list A) : result (list (list A)) :=
  if (r <=? 0)%Z
  then Raise (NumpyError "cannot reshape array")
  else if (Z.of_nat (length x) mod r =? 0)%Z
       then Ok (rows_of (Z.to_nat r) (Z.to_nat (Z.of_nat (length x) / r)) x)
       else Raise (NumpyError "cannot reshape array").


(** [np.size(a, axis=1)] of a two-dimensional array with at least a row. *)
Definition ncols (m : list (list A)) : nat := length (hd [] m).

(** [m] has [r] rows of [c] entries each. *)
Definition is_matrix (r c : nat) (m : list (list A)) : Prop :=
  length m = r /\ Forall (fun row => length row = c) m.

(** A reduction along axis 0 ([np.min], [np.max]): numpy refuses an array
    with no row. *)
Definition reduce_axis0 (f : A -> A -> A) (m : list (list A))
  : result (list A) :=
  match m with
  | [] => Raise (NumpyError "zero-size array to reduction operation")
  | row :: rest => Ok (fold_left (map2 f) rest row)
  end.

End Arrays.

Definition np_min (m : list (list Qc)) : result (list Qc) :=
  reduce_axis0 Qcmin m.

Definition np_max (m : list (list Qc)) : result (list Qc) :=
  reduce_axis0 Qcmax m.

(** ** Strings *)

(** [str.lower] on ASCII text: dataset names and file names are ASCII. *)
Definition lower_ascii (c : ascii) : ascii :=
  let n := nat_of_ascii c in
  if ((65 <=? n) && (n <=? 90))%nat then ascii_of_nat (n + 32) else c.

Fixpoint lower (s : string) : string :=
  match s with
  | EmptyString => EmptyString
  | String c s' => String (lower_ascii c) (lower s')
  end.

(** ** Dictionaries

    A dict is the list of its items in insertion order, keys distinct. *)

Section Dict.

Variables K V : Type.
Variable eqb : K -> K -> bool.

Fixpoint dict_get (d : list (K * V)) (key : K) : option V :=
  match d with
  | [] => None
  | (k, v) :: d' => if eqb k key then Some v else dict_get d' key
  end.

Definition dict_has (d : list (K * V)) (key : K) : bool :=
  existsb (fun kv => eqb (fst kv) key) d.

Fixpoint dict_set (d : list (K * V)) (key : K) (v : V) : list (K * V) :=
  match d with
  | [] => [(key, v)]
  | (k, v') :: d' =>
      if eqb k key then (k, v) :: d' else (k, v') :: dict_set d' key v
  end.

End Dict.

(** ** The file system and the remote archive *)

(** A path names a directory or a file.  A file is kept as what
    [np.loadtxt(path, delimiter=d)] makes of its text: a table of numbers,
    or nothing when the text is not rows of numbers separated by [d]. *)
Inductive node : Type :=
| Dir
| File (parse : string -> option (list (list Qc))).

Definition filesystem : Type := string -> option node.

Definition path_exists (fs : filesystem) (p : string) : bool :=
  match fs p with Some _ => true | None => false end.

Definition isdir (fs : filesystem) (p : string) : bool :=
  match fs p with Some Dir => true | _ => false end.

Definition loadtxt (fs : filesystem) (p delimiter : string)
  : result (list (list Qc)) :=
  match fs p with
  | Some (File parse) =>
      match parse delimiter with
      | Some table => Ok table
      | None => Raise (NumpyError "could not convert string to float")
      end
  | _ => Raise (OSError p)
  end.

(** [os.makedirs(p, exist_ok=True)]. *)
Definition makedirs (fs : filesystem) (p : string) : result filesystem :=
  match fs p with
  | Some (File _) => Raise (OSError p)
  | Some Dir => Ok fs
  | None => Ok (fun q => if String.eqb q p then Some Dir else fs q)
  end.

(** [TarFile.extractall(target)]: every member is written below [target]. *)
Definition extractall (members : list (string * node)) (target : string)
    (fs : filesystem) : filesystem :=
  fun q =>
    match find (fun m => String.eqb (target ++ "/" ++ fst m) q) members with
    | Some m => Some (snd m)
    | None => fs q
    end.

Inductive event : Type :=
| Warned (msg : string)
| Printed (msg : string)
| UrlOpen (url : string)
| ExtractAll (target : string).

(** What the process acts on: the file system, the archive a URL yields
    (or the exception of the download or of the extraction), and the
    effects so far, latest first. *)
Record world : Type := World {
  files : filesystem;
  remote : string -> result (list (string * node));
  trace : list event
}.

Definition emit (e : event) (w : world) : world :=
  World (files w) (remote w) (e :: trace w).

Definition set_files (fs : filesystem) (w : world) : world :=
  World fs (remote w) (trace w).

(** ** The benchmarking framework *)

Inductive OptimizationType : Type := MIN | MAX.
Inductive ProblemClass : Type := REAL | INTEGER.

Record MetaData : Type := {
  problem_id : option Z;  (* [None]: the id the framework gave is kept *)
  instance : Z;
  name : string;
  n_variables : Z;
  optimization_type : OptimizationType
}.

Record Problem : Type := {
  function : list float -> result float;
  meta_data : MetaData;
  problem_class : ProblemClass;
  lb : list Qc;
  ub : list Qc
}.

(** [ioh.wrap_problem]: the handle records what it is given; scalar bounds
    are spread over the [dimension] variables. *)
Definition wrap_problem (f : list float -> result float) (name : string)
    (optimization_type : OptimizationType) (problem_class : ProblemClass)
    (lb ub : Qc) (instance dimension : Z) : Problem :=
  {| function := f;
     meta_data := {| problem_id := None; instance := instance; name := name;
                     n_variables := dimension;
                     optimization_type := optimization_type |};
     problem_class := problem_class;
     lb := repeat lb (Z.to_nat dimension);
     ub := repeat ub (Z.to_nat dimension) |}.

Definition set_id (f : Problem) (id : Z) : Problem :=
  let m := meta_data f in
  {| function := function f;
     meta_data := {| problem_id := Some id; instance := instance m;
                     name := name m; n_variables := n_variables m;
                     optimization_type := optimization_type m |};
     problem_class := problem_class f;
     lb := lb f;
     ub := ub f |}.

(** ** Error metrics *)

(** A metric takes the normalised dataset and the centers. *)
Definition metric : Type :=
  list (list float) -> list (list float) -> result float.

Definition sq_dist (p c : list float) : float :=
  fold_left add (map2 (fun a b => mul (sub a b) (sub a b)) p c) (Fin 0).

Definition nearest (centers : list (list float)) (p : list float)
  : result float :=
  match centers with
  | [] => Raise (NumpyError "zero-size array to reduction operation")
  | c :: cs => Ok (fold_left (fun m c' => minimum m (sq_dist p c')) cs
                     (sq_dist p c))
  end.

Fixpoint traverse {A B : Type} (f : A -> result B) (xs : list A)
  : result (list B) :=
  match xs with
  | [] => Ok []
  | x :: xs' => y <- f x ;; ys <- traverse f xs' ;; Ok (y :: ys)
  end.

Definition mean (xs : list float) : float :=
  div (fold_left add xs (Fin 0))
      (Fin (Q2Qc (inject_Z (Z.of_nat (length xs))))).

(** Modelled from the spec: [mse_euclidean] of the module [cluster_metrics],
    which is not among the sources: the mean, over the points, of the
    squared Euclidean distance from the point to its nearest center. *)
Definition mse_euclidean : metric :=
  fun data centers => ds <- traverse (nearest centers) data ;; Ok (mean ds).

(** ** The module [cluster_base] *)

Inductive dataset_ref : Type :=
| DatasetName (s : string)
| DatasetArray (a : list (list Qc)).

Inductive metric_ref : Type :=
| MetricName (s : string)
| MetricCallable (f : metric).

Inductive fid_ref : Type :=
| FidInt (n : Z)
| FidName (s : string).

(** The errors of the specification's taxonomy, as the module raises them. *)
Definition UnknownMetric (error_metric : string) : exn :=
  ValueError ("Unknown metric " ++ error_metric).

Definition UnknownDatasetName (dataset_name : string) : exn :=
  ValueError ("Unknown dataset name " ++ dataset_name).

Definition UnknownDatasetId (fid : Z) : exn :=
  ValueError ("Unknown dataset id " ++ str fid).

(** [(data_np - min) / (max - min)], the vectors broadcast over the rows. *)
Definition normalize (data_min data_max : list Qc) (rows : list (list Qc))
  : list (list float) :=
  map (fun row => map2 divq (map2 Qcminus row data_min)
                            (map2 Qcminus data_max data_min)) rows.

(** The closure [obj_func] of [create_cluster_problem]. *)
Definition obj_func (error_metric : metric) (data_normalized : list (list float))
    (k : Z) (data_np : list (list Qc)) (x : list float) : result float :=
  centers <- reshape k (Z.of_nat (ncols data_np)) x ;;
  error_metric data_normalized centers.

(** The closure [retransform] of [create_cluster_problem]. *)
Definition retransform (k : Z) (data_min data_max : list Qc) (X : list float)
  : result (list (list float)) :=
  scaled <- broadcast mul X (map Fin (map2 Qcminus data_max data_min)) ;;
  X2 <- broadcast add scaled (map Fin data_min) ;;
  reshape_rows k X2.

Definition benchmark_dir : string := "banchmark_datasets".

Definition download_url : string :=
  "https://github.com/IOHprofiler/IOHClustering/blob/main/static.tar.gz?raw=true".

Module cluster_base.

Section Tables.

Variable CLUSTER_METRICS : list (string * metric).
Variable CLUSTER_BASELINE_DATASETS : list (Z * string).
Variable BASELINE_K_DIMENTIONS : list (string * list Z).

(** The [for] loop of [get_problem_id]: the first key whose value is the
    name; [None] is what Python returns when the loop runs out. *)
Fixpoint first_key (items : list (Z * string)) (dataset_name : string)
  : option Z :=
  match items with
  | [] => None
  | (k, v) :: rest =>
      if String.eqb v dataset_name then Some k
      else first_key rest dataset_name
  end.

(** [get_problem_id]: the name is lowercased, looked up among the values of
    the catalog, and the key of its first item is returned. *)
Definition get_problem_id (dataset_name : string) : result (option Z) :=
  let dataset_name := lower dataset_name in
  if existsb (String.eqb dataset_name) (map snd CLUSTER_BASELINE_DATASETS)
  then Ok (first_key CLUSTER_BASELINE_DATASETS dataset_name)
  else Raise (UnknownDatasetName dataset_name).

(** Lines 54-64: the table, the label that goes into the name, and the
    catalog id if the catalog was asked. *)
Definition resolve_dataset (fs : filesystem) (dataset : dataset_ref)
  : result (list (list Qc) * string * option Z) :=
  match dataset with
  | DatasetName s =>
      if path_exists fs (s ++ ".txt")
      then data <- loadtxt fs (s ++ ".txt") "," ;;
           Ok (data, s, None)
      else id <- get_problem_id s ;;
           data <- loadtxt fs (benchmark_dir ++ "/" ++ s ++ ".txt") "," ;;
           Ok (data, s, id)
  | DatasetArray a => Ok (a, "custom", None)
  end.

(** Lines 66-70. *)
Definition resolve_metric (error_metric : metric_ref) : result metric :=
  match error_metric with
  | MetricName s =>
      if dict_has String.eqb CLUSTER_METRICS s
      then match dict_get String.eqb CLUSTER_METRICS s with
           | Some f => Ok f
           | None => Raise (KeyError s)
           end
      else Raise (UnknownMetric s)
  | MetricCallable f => Ok f
  end.

(** [create_cluster_problem]: the problem and its [retransform].  [mn] and
    [mx] are [np.min(data_np, axis=0)] and [np.max(data_np, axis=0)]. *)
Definition create_cluster_problem (fs : filesystem) (dataset : dataset_ref)
    (k : Z) (instance : Z) (error_metric : metric_ref)
  : result (Problem * (list float -> result (list (list float)))) :=
  '(data, dataset, id) <- resolve_dataset fs dataset ;;
  error_metric <- resolve_metric error_metric ;;
  let data_np := data in
  mn <- np_min data_np ;;
  data_min <- tile mn k ;;
  mx <- np_max data_np ;;
  data_max <- tile mx k ;;
  let data_normalized := normalize mn mx data_np in
  let f := wrap_problem
             (obj_func error_metric data_normalized k data_np)
             ("Cluster_" ++ dataset ++ "_k" ++ str k)
             MIN REAL 0%Qc 1%Qc instance
             (k * Z.of_nat (ncols data_np)) in
  let f := match id with Some i => set_id f i | None => f end in
  Ok (f, retransform k data_min data_max).

(** [download_benchmark_datasets]: [target] is the benchmark-data directory
    below the working directory (the absolute prefix that [realpath] adds
    is left out).  The world is returned also when the call raises. *)
Definition download_benchmark_datasets (warn : bool) (w : world)
  : result unit * world :=
  let target := benchmark_dir in
  if isdir (files w) target && warn
  then (Ok tt,
        emit (Warned ("Attempting to download static folder but path "
                      ++ target ++ " already exists. Skipping...")) w)
  else
    match makedirs (files w) target with
    | Raise e => (Raise e, w)
    | Ok fs =>
        let w := set_files fs w in
        let w := emit (Printed ("Downloading static folder from "
                                ++ download_url ++ " to " ++ target)) w in
        let w := emit (UrlOpen download_url) w in
        match remote w download_url with
        | Raise e => (Raise e, w)
        | Ok members =>
            (Ok tt, emit (ExtractAll target)
                      (set_files (extractall members target (files w)) w))
        end
    end.

(** [get_problem]: a name is turned into an id first; the arguments of the
    call to the builder are evaluated in order, so a table that lacks the
    key raises before the builder runs. *)
Definition get_problem (fs : filesystem) (fid : fid_ref) (instance k : Z)
  : result (Problem * (list float -> result (list (list float)))) :=
  fid <- match fid with
         | FidName s => get_problem_id s
         | FidInt n => Ok (Some n)
         end ;;
  match fid with
  | None => Raise (ValueError "Unknown dataset id None")
  | Some n =>
      if negb (dict_has Z.eqb CLUSTER_BASELINE_DATASETS n)
      then Raise (UnknownDatasetId n)
      else
        match dict_get Z.eqb CLUSTER_BASELINE_DATASETS n with
        | None => Raise (KeyError (str n))
        | Some dataset =>
            match dict_get String.eqb CLUSTER_METRICS "mse_euclidean" with
            | None => Raise (KeyError "mse_euclidean")
            | Some m =>
                create_cluster_problem fs (DatasetName dataset) k instance
                  (MetricCallable m)
            end
        end
  end.

Definition problems_dict : Type :=
  list (string * (Problem * (list float -> result (list (list float))))).

(** The inner loop of [load_problems], over the k values of a dataset. *)
Fixpoint load_dataset (fs : filesystem) (dataset : string) (ks : list Z)
    (problems : problems_dict) : result problems_dict :=
  match ks with
  | [] => Ok problems
  | k :: ks' =>
      pr <- create_cluster_problem fs (DatasetName dataset) k 1
              (MetricName "mse_euclidean") ;;
      load_dataset fs dataset ks'
        (dict_set String.eqb problems (name (meta_data (fst pr))) pr)
  end.

(** The outer loop of [load_problems], over the catalog names. *)
Fixpoint load_datasets (fs : filesystem) (datasets : list string)
    (problems : problems_dict) : result problems_dict :=
  match datasets with
  | [] => Ok problems
  | dataset :: rest =>
      if path_exists fs (benchmark_dir ++ "/" ++ dataset ++ ".txt")
      then match dict_get String.eqb BASELINE_K_DIMENTIONS dataset with
           | None => Raise (KeyError dataset)
           | Some ks =>
               problems <- load_dataset fs dataset ks problems ;;
               load_datasets fs rest problems
           end
      else load_datasets fs rest problems
  end.

(** [load_problems]: the download without the warning, then every catalog
    dataset whose file is listed in the benchmark-data directory. *)
Definition load_problems (w : world) : result problems_dict * world :=
  match download_benchmark_datasets false w with
  | (Raise e, w) => (Raise e, w)
  | (Ok _, w) =>
      (load_datasets (files w) (map snd CLUSTER_BASELINE_DATASETS) [], w)
  end.

End Tables.

End cluster_base.

Import cluster_base.

(** ** Notions of the specification *)


(** Column [j] of the dataset holds one value in every row. *)
Definition constant_column (data : list (list Qc)) (j : nat) : Prop :=
  exists c, Forall (fun row => nth_error row j = Some c) data.


(** The label that goes into a problem's name. *)
Definition dataset_label (dataset : dataset_ref) : string :=
  match dataset with
  | DatasetName s => s
  | DatasetArray _ => "custom"
  end.

(** ** Sample inputs *)

Module Sample.

Definition q (z : Z) : Qc := Q2Qc (inject_Z z).

Definition half : Qc := Q2Qc (1 # 2).
Definition third : Qc := Q2Qc (1 # 3).

(** The dataset of the specification's end-to-end example. *)
Definition line_data : list (list Qc) :=
  [[q 0; q 0]; [q 2; q 2]; [q 4; q 4]].

(** A dataset whose first feature is constant. *)
Definition flat_data : list (list Qc) :=
  [[q 1; q 0]; [q 1; q 2]].

Definition registry : list (string * metric) :=
  [("mse_euclidean", mse_euclidean)].

Definition catalog : list (Z * string) :=
  [(1%Z, "iris"); (2%Z, "wine")].

Definition k_values : list (string * list Z) :=
  [("iris", [2%Z; 3%Z]); ("wine", [2%Z])].

Definition csv (table : list (list Qc)) : node :=
  File (fun delimiter =>
          if String.eqb delimiter "," then Some table else None).

Definition no_files : filesystem := fun _ => None.

(** A working directory that holds [points.txt]. *)
Definition local_files : filesystem :=
  fun p => if String.eqb p "points.txt" then Some (csv line_data) else None.

(** A working directory that holds the benchmark data of [iris]. *)
Definition bench_files : filesystem :=
  fun p =>
    if String.eqb p "banchmark_datasets" then Some Dir
    else if String.eqb p "banchmark_datasets/iris.txt"
         then Some (csv line_data)
         else None.

Definition archive : list (string * node) := [("iris.txt", csv line_data)].

Definition online (fs : filesystem) : world :=
  World fs (fun _ => Ok archive) [].

(** The problem that the builder makes of [line_data] with two clusters,
    instance 7 and the metric [mse_euclidean], under a given label, and
    its retransform. *)
Definition problem_of (label : string) : Problem :=
  wrap_problem
    (obj_func mse_euclidean (normalize [q 0; q 0] [q 4; q 4] line_data)
       2 line_data)
    ("Cluster_" ++ label ++ "_k2") MIN REAL 0%Qc 1%Qc 7 4.

Definition line_retransform : list float -> result (list (list float)) :=
  retransform 2 [q 0; q 0; q 0; q 0] [q 4; q 4; q 4; q 4].

End Sample.

(** ** Further notions and sample inputs *)


(** An entry of the bulk loader's mapping that is filed under the name of
    its problem, a minimisation problem with instance number 1. *)
Definition entry_ok (entry : string * (Problem *
                        (list float -> result (list (list float))))) : Prop :=
  name (meta_data (fst (snd entry))) = fst entry /\
  instance (meta_data (fst (snd entry))) = 1%Z /\
  optimization_type (meta_data (fst (snd entry))) = MIN.

Module Offline.


(** A working directory where [banchmark_datasets] is a regular file. *)
Definition blocked_files : filesystem :=
  fun p =>
    if String.eqb p "banchmark_datasets" then Some (Sample.csv []) else None.

(** A working directory that holds its own [iris.txt] beside the benchmark
    data. *)
Definition shadow_files : filesystem :=
  fun p =>
    if String.eqb p "iris.txt" then Some (Sample.csv Sample.flat_data)
    else Sample.bench_files p.

End Offline.

Module Variants.

(** A metric of the caller's own. *)
Definition nan_metric : metric := fun _ _ => Ok NaN.

(** The problem that the builder makes of [Sample.line_data] with two
    clusters, instance 3 and [nan_metric]. *)
Definition other_problem : Problem :=
  wrap_problem
    (obj_func nan_metric
       (normalize [Sample.q 0; Sample.q 0] [Sample.q 4; Sample.q 4]
          Sample.line_data)
       2 Sample.line_data)
    "Cluster_custom_k2" MIN REAL 0%Qc 1%Qc 3 4.

(** What [get_problem] makes of id 1 with two clusters and instance 7
    when the working directory holds its own [iris.txt]. *)
Definition shadow_problem : Problem :=
  wrap_problem
    (obj_func mse_euclidean
       (normalize [Sample.q 1; Sample.q 0] [Sample.q 1; Sample.q 2]
          Sample.flat_data)
       2 Sample.flat_data)
    "Cluster_iris_k2" MIN REAL 0%Qc 1%Qc 7 4.

Definition shadow_retransform : list float -> result (list (list float)) :=
  retransform 2 [Sample.q 1; Sample.q 0; Sample.q 1; Sample.q 0]
                [Sample.q 1; Sample.q 2; Sample.q 1; Sample.q 2].

(** What [load_problems] builds from the benchmark file of [iris] for k
    clusters, and the mapping it returns for [Sample.k_values]. *)
Definition loaded_problem (k : Z) : Problem :=
  set_id
    (wrap_problem
       (obj_func mse_euclidean
          (normalize [Sample.q 0; Sample.q 0] [Sample.q 4; Sample.q 4]
             Sample.line_data)
          k Sample.line_data)
       ("Cluster_iris_k" ++ str k) MIN REAL 0%Qc 1%Qc 1 (k * 2))
    1.

Definition loaded_retransform (k : Z)
  : list float -> result (list (list float)) :=
  retransform k
    (concat (repeat [Sample.q 0; Sample.q 0] (Z.to_nat k)))
    (concat (repeat [Sample.q 4; Sample.q 4] (Z.to_nat k))).

Definition loaded : problems_dict :=
  [("Cluster_iris_k2", (loaded_problem 2, loaded_retransform 2));
   ("Cluster_iris_k3", (loaded_problem 3, loaded_retransform 3))].

End Variants.

(** * Properties *)

(** ** Arrays: lengths, rows and flattening *)

Lemma map2_length {A B C : Type} (f : A -> B -> C) (xs : list A) (ys : list B) :
  length xs = length ys -> length (map2 f xs ys) = length xs.
Proof.
  revert ys; induction xs as [|x xs IH]; intros [|y ys]; simpl;
    try discriminate; auto.
Qed.


Lemma fold_map2_length {A : Type} (f : A -> A -> A) (rest : list (list A)) :
  forall (row : list A) (c : nat),
    length row = c -> Forall (fun r => length r = c) rest ->
    length (fold_left (map2 f) rest row) = c.
Proof.
  induction rest as [|r rest IH]; simpl; intros row c Hrow Hall; auto.
  inversion Hall; subst.
  apply IH; auto. rewrite map2_length; congruence.
Qed.

Lemma reduce_axis0_length {A : Type} (f : A -> A -> A) (m : list (list A))
    (r c : nat) (v : list A) :
  is_matrix r c m -> reduce_axis0 f m = Ok v -> length v = c.
Proof.
  intros [_ Hall] H. destruct m as [|row rest]; simpl in H; [discriminate|].
  inversion H; subst. inversion Hall; subst.
  apply fold_map2_length; auto.
Qed.


Lemma concat_repeat_length {A : Type} (v : list A) (n : nat) :
  length (concat (repeat v n)) = (n * length v)%nat.
Proof.
  induction n as [|n IH]; simpl; auto.
  rewrite length_app, IH; reflexivity.
Qed.



Lemma tile_ok {A : Type} (v : list A) (k : Z) :
  (0 <= k)%Z -> tile v k = Ok (concat (repeat v (Z.to_nat k))).
Proof.
  intros Hk. unfold tile. destruct v as [|a v].
  - clear Hk. induction (Z.to_nat k) as [|n IH]; simpl; auto.
  - destruct (Z.ltb_spec k 0); [lia|reflexivity].
Qed.


Lemma broadcast_same {A : Type} (f : A -> A -> A) (xs ys : list A) :
  length xs = length ys -> broadcast f xs ys = Ok (map2 f xs ys).
Proof.
  intros H. unfold broadcast. rewrite H, Nat.eqb_refl. reflexivity.
Qed.

(** ** Normalisation and its inverse *)


Lemma divq_nonzero (a b : Qc) : b <> 0%Qc -> divq a b = Fin (a / b).
Proof.
  intros H. unfold divq. destruct (Qc_eq_dec b 0); [contradiction|reflexivity].
Qed.







(** ** The problem builder *)

Section BuilderProperties.

Variable CLUSTER_METRICS : list (string * metric).
Variable CLUSTER_BASELINE_DATASETS : list (Z * string).

Local Abbreviation create_cluster_problem :=
  (create_cluster_problem CLUSTER_METRICS CLUSTER_BASELINE_DATASETS).
Local Abbreviation resolve_dataset :=
  (resolve_dataset CLUSTER_BASELINE_DATASETS).
Local Abbreviation resolve_metric := (resolve_metric CLUSTER_METRICS).

(** What a successful call went through, step by step. *)
Lemma create_cluster_problem_ok_inv fs dataset k instance error_metric pr :
  create_cluster_problem fs dataset k instance error_metric = Ok pr ->
  exists data label id f mn mx data_min data_max,
    resolve_dataset fs dataset = Ok (data, label, id) /\
    resolve_metric error_metric = Ok f /\
    np_min data = Ok mn /\ tile mn k = Ok data_min /\
    np_max data = Ok mx /\ tile mx k = Ok data_max /\
    pr = (let p := wrap_problem (obj_func f (normalize mn mx data) k data)
                     ("Cluster_" ++ label ++ "_k" ++ str k) MIN REAL
                     0%Qc 1%Qc instance (k * Z.of_nat (ncols data)) in
          match id with Some i => set_id p i | None => p end,
          retransform k data_min data_max).
Proof.
  unfold cluster_base.create_cluster_problem. intros H.
  destruct (resolve_dataset fs dataset) as [[[data label] id]|e] eqn:Hd;
    cbn [bind] in H; [|discriminate].
  destruct (resolve_metric error_metric) as [f|e] eqn:Hm;
    cbn [bind] in H; [|discriminate].
  destruct (np_min data) as [mn|e] eqn:Hmn; cbn [bind] in H; [|discriminate].
  destruct (tile mn k) as [data_min|e] eqn:Htn; cbn [bind] in H; [|discriminate].
  destruct (np_max data) as [mx|e] eqn:Hmx; cbn [bind] in H; [|discriminate].
  destruct (tile mx k) as [data_max|e] eqn:Htx; cbn [bind] in H; [|discriminate].
  injection H as <-.
  exists data, label, id, f, mn, mx, data_min, data_max.
  repeat split; assumption || reflexivity.
Qed.

Lemma resolve_dataset_label fs dataset data label id :
  resolve_dataset fs dataset = Ok (data, label, id) ->
  label = dataset_label dataset.
Proof.
  destruct dataset as [s|a]; simpl.
  - destruct (path_exists fs (s ++ ".txt")).
    + destruct (loadtxt fs (s ++ ".txt") ","); simpl; congruence.
    + destruct (get_problem_id CLUSTER_BASELINE_DATASETS s); simpl;
        [|discriminate].
      destruct (loadtxt fs _ ","); simpl; congruence.
  - congruence.
Qed.


(** C4: on every successful call the problem is named
    "Cluster_{label}_k{k}" (the label is "custom" for an array), its
    dimension is k times the feature count of the resolved dataset, its
    bounds are 0 and 1 in each of these dimensions, it is a minimisation
    problem and it carries the caller's instance number. *)
Theorem problem_metadata
    (fs : filesystem) (dataset : dataset_ref) (k i : Z)
    (error_metric : metric_ref) (problem : Problem)
    (rt : list float -> result (list (list float))) :
  create_cluster_problem fs dataset k i error_metric = Ok (problem, rt) ->
  exists data id,
    resolve_dataset fs dataset = Ok (data, dataset_label dataset, id) /\
    name (meta_data problem)
    = "Cluster_" ++ dataset_label dataset ++ "_k" ++ str k /\
    n_variables (meta_data problem) = (k * Z.of_nat (ncols data))%Z /\
    lb problem = repeat 0%Qc (Z.to_nat (k * Z.of_nat (ncols data))) /\
    ub problem = repeat 1%Qc (Z.to_nat (k * Z.of_nat (ncols data))) /\
    optimization_type (meta_data problem) = MIN /\
    instance (meta_data problem) = i.
Proof.
  intros H.
  destruct (create_cluster_problem_ok_inv _ _ _ _ _ H)
    as (data & label & id & f & mn & mx & dmin & dmax &
        Hd & _ & _ & _ & _ & _ & Hpr).
  pose proof (resolve_dataset_label _ _ Hd) as Hl. subst label.
  exists data, id. split; [exact Hd|].
  inversion Hpr; subst problem rt.
  destruct id; repeat split; reflexivity.
Qed.

(** C10: the instance number does not reach the objective.  Two calls
    that differ in the instance number alone fail alike or succeed alike,
    and the objectives of the two problems agree on every input. *)
Theorem objective_independent_of_instance
    (fs : filesystem) (dataset : dataset_ref) (k i1 i2 : Z)
    (error_metric : metric_ref) :
  match create_cluster_problem fs dataset k i1 error_metric,
        create_cluster_problem fs dataset k i2 error_metric with
  | Ok (p1, _), Ok (p2, _) => forall x, function p1 x = function p2 x
  | Raise e1, Raise e2 => e1 = e2
  | _, _ => False
  end.
Proof.
  unfold cluster_base.create_cluster_problem.
  destruct (resolve_dataset fs dataset) as [[[data label] id]|e];
    cbn [bind]; [|reflexivity].
  destruct (resolve_metric error_metric) as [f|e]; cbn [bind]; [|reflexivity].
  destruct (np_min data) as [mn|e]; cbn [bind]; [|reflexivity].
  destruct (tile mn k) as [data_min|e]; cbn [bind]; [|reflexivity].
  destruct (np_max data) as [mx|e]; cbn [bind]; [|reflexivity].
  destruct (tile mx k) as [data_max|e]; cbn [bind]; [|reflexivity].
  destruct id; intros x; reflexivity.
Qed.

End BuilderProperties.

(** ** The catalog *)



Lemma existsb_eqb_In (n : string) (l : list string) :
  existsb (String.eqb n) l = true <-> In n l.
Proof.
  rewrite existsb_exists. split.
  - intros [x [Hin Heq]]. apply String.eqb_eq in Heq. subst; exact Hin.
  - intros Hin. exists n. split; [exact Hin|apply String.eqb_refl].
Qed.

Section DictProperties.

Variables K V : Type.
Variable eqb : K -> K -> bool.
Hypothesis eqb_eq : forall a b, eqb a b = true <-> a = b.

Lemma dict_has_get (d : list (K * V)) (key : K) :
  dict_has eqb d key = true <-> exists v, dict_get eqb d key = Some v.
Proof.
  unfold dict_has. induction d as [|[k v] d IH]; simpl.
  - split; [discriminate|intros [v H]; discriminate].
  - destruct (eqb k key); simpl.
    + split; [intros _; exists v; reflexivity|reflexivity].
    + exact IH.
Qed.

Lemma dict_get_In (d : list (K * V)) (key : K) (v : V) :
  dict_get eqb d key = Some v -> In (key, v) d.
Proof.
  induction d as [|[k v'] d IH]; simpl; [discriminate|].
  destruct (eqb k key) eqn:E.
  - intros H; inversion H; subst. apply eqb_eq in E. subst. left; reflexivity.
  - intros H; right; apply IH; exact H.
Qed.

End DictProperties.

Section CatalogProperties.

Variable CLUSTER_METRICS : list (string * metric).
Variable CLUSTER_BASELINE_DATASETS : list (Z * string).

Local Abbreviation get_problem_id :=
  (get_problem_id CLUSTER_BASELINE_DATASETS).
Local Abbreviation get_problem :=
  (get_problem CLUSTER_METRICS CLUSTER_BASELINE_DATASETS).
Local Abbreviation create_cluster_problem :=
  (create_cluster_problem CLUSTER_METRICS CLUSTER_BASELINE_DATASETS).
Local Abbreviation resolve_dataset :=
  (resolve_dataset CLUSTER_BASELINE_DATASETS).
Local Abbreviation resolve_metric := (resolve_metric CLUSTER_METRICS).

Lemma first_key_In (items : list (Z * string)) (n : string) (k : Z) :
  first_key items n = Some k -> In (k, n) items.
Proof.
  induction items as [|[k' v] items IH]; simpl; [discriminate|].
  destruct (String.eqb v n) eqn:E.
  - intros H; inversion H; subst. apply String.eqb_eq in E. subst.
    left; reflexivity.
  - intros H; right; apply IH; exact H.
Qed.

Lemma first_key_found (items : list (Z * string)) (n : string) :
  In n (map snd items) -> exists k, first_key items n = Some k.
Proof.
  induction items as [|[k' v] items IH]; simpl; [contradiction|].
  intros [H|H].
  - subst. rewrite String.eqb_refl. eexists; reflexivity.
  - destruct (String.eqb v n); [eexists; reflexivity|apply IH; exact H].
Qed.

Lemma In_dict_has (items : list (Z * string)) (k : Z) (v : string) :
  In (k, v) items -> dict_has Z.eqb items k = true.
Proof.
  intros H. unfold dict_has. apply existsb_exists.
  exists (k, v). split; [exact H|apply Z.eqb_refl].
Qed.

(** The loop of [get_problem_id] never runs out: a successful call
    returns a key of the catalog, stored under the lowercased name. *)
Lemma get_problem_id_ok (s : string) (r : option Z) :
  get_problem_id s = Ok r ->
  exists n, r = Some n /\ In (n, lower s) CLUSTER_BASELINE_DATASETS.
Proof.
  unfold cluster_base.get_problem_id.
  destruct (existsb _ _) eqn:E; [|discriminate].
  apply existsb_eqb_In in E.
  destruct (first_key_found _ _ E) as [n Hn].
  intros H; inversion H; subst r.
  exists n. split; [exact Hn|apply first_key_In; exact Hn].
Qed.


(** C6: an integer that is no key of the catalog makes [get_problem] raise
    the unknown-dataset-id error, whatever the files are; a key of the
    catalog, given as an integer or through a name that resolves to it,
    makes it call the builder with the catalog's name for that key and the
    registry's [mse_euclidean] as the metric. *)
Theorem get_problem_delegates (mse : metric) (fs : filesystem) (i k : Z) :
  dict_get String.eqb CLUSTER_METRICS "mse_euclidean" = Some mse ->
  (forall n : Z,
     dict_has Z.eqb CLUSTER_BASELINE_DATASETS n = false ->
     get_problem fs (FidInt n) i k = Raise (UnknownDatasetId n)) /\
  (forall n : Z,
     dict_has Z.eqb CLUSTER_BASELINE_DATASETS n = true ->
     exists dataset,
       dict_get Z.eqb CLUSTER_BASELINE_DATASETS n = Some dataset /\
       get_problem fs (FidInt n) i k
       = create_cluster_problem fs (DatasetName dataset) k i
           (MetricCallable mse)) /\
  (forall (s : string) (n : Z),
     get_problem_id s = Ok (Some n) ->
     exists dataset,
       dict_get Z.eqb CLUSTER_BASELINE_DATASETS n = Some dataset /\
       get_problem fs (FidName s) i k
       = create_cluster_problem fs (DatasetName dataset) k i
           (MetricCallable mse)).
Proof.
  intros Hmse.
  assert (Hkey : forall n,
             dict_has Z.eqb CLUSTER_BASELINE_DATASETS n = true ->
             exists dataset,
               dict_get Z.eqb CLUSTER_BASELINE_DATASETS n = Some dataset /\
               get_problem fs (FidInt n) i k
               = create_cluster_problem fs (DatasetName dataset) k i
                   (MetricCallable mse)).
  { intros n Hn. pose proof Hn as Hg.
    apply dict_has_get in Hg. destruct Hg as [dataset Hg].
    exists dataset. split; [exact Hg|].
    unfold cluster_base.get_problem. cbn [bind].
    rewrite Hn. cbn [negb]. rewrite Hg, Hmse. reflexivity. }
  repeat split.
  - intros n Hn. unfold cluster_base.get_problem. cbn [bind].
    rewrite Hn. reflexivity.
  - exact Hkey.
  - intros s n Hs.
    destruct (get_problem_id_ok _ Hs) as [n' [Hn' Hin]].
    inversion Hn'; subst n'.
    destruct (Hkey n (In_dict_has _ _ _ Hin)) as [dataset [Hg Hp]].
    exists dataset. split; [exact Hg|].
    rewrite <- Hp. unfold cluster_base.get_problem. rewrite Hs. reflexivity.
Qed.

End CatalogProperties.

(** ** Resolution of the metric and of the dataset *)

Section ResolutionProperties.

Variable CLUSTER_METRICS : list (string * metric).
Variable CLUSTER_BASELINE_DATASETS : list (Z * string).

Local Abbreviation get_problem_id :=
  (get_problem_id CLUSTER_BASELINE_DATASETS).
Local Abbreviation create_cluster_problem :=
  (create_cluster_problem CLUSTER_METRICS CLUSTER_BASELINE_DATASETS).
Local Abbreviation resolve_dataset :=
  (resolve_dataset CLUSTER_BASELINE_DATASETS).
Local Abbreviation resolve_metric := (resolve_metric CLUSTER_METRICS).

Lemma resolve_metric_unknown (s : string) :
  dict_has String.eqb CLUSTER_METRICS s = false ->
  resolve_metric (MetricName s) = Raise (UnknownMetric s).
Proof.
  intros H. simpl. rewrite H. reflexivity.
Qed.

Lemma resolve_metric_known (s : string) :
  dict_has String.eqb CLUSTER_METRICS s = true ->
  exists f, dict_get String.eqb CLUSTER_METRICS s = Some f /\
            resolve_metric (MetricName s) = Ok f.
Proof.
  intros H. pose proof H as Hg. apply dict_has_get in Hg.
  destruct Hg as [f Hg]. exists f. split; [exact Hg|].
  simpl. rewrite H, Hg. reflexivity.
Qed.

(** C5, as the code has it: a metric name that is no key of the registry
    makes every call fail, so that no problem is built; the error is the
    unknown-metric error whenever the dataset reference resolves, as an
    array always does, and the error of the dataset otherwise, since the
    dataset is resolved first.  A registered name stands for the function
    the registry holds for it. *)
Theorem unknown_metric_fails
    (fs : filesystem) (dataset : dataset_ref) (k i : Z) (s : string) :
  (dict_has String.eqb CLUSTER_METRICS s = false ->
   (exists e, create_cluster_problem fs dataset k i (MetricName s) = Raise e) /\
   (forall data label id,
      resolve_dataset fs dataset = Ok (data, label, id) ->
      create_cluster_problem fs dataset k i (MetricName s)
      = Raise (UnknownMetric s)) /\
   (forall e,
      resolve_dataset fs dataset = Raise e ->
      create_cluster_problem fs dataset k i (MetricName s) = Raise e) /\
   (forall a,
      create_cluster_problem fs (DatasetArray a) k i (MetricName s)
      = Raise (UnknownMetric s))) /\
  (dict_has String.eqb CLUSTER_METRICS s = true ->
   exists f,
     dict_get String.eqb CLUSTER_METRICS s = Some f /\
     resolve_metric (MetricName s) = Ok f /\
     create_cluster_problem fs dataset k i (MetricName s)
     = create_cluster_problem fs dataset k i (MetricCallable f)).
Proof.
  split.
  - intros H. pose proof (resolve_metric_unknown _ H) as Hm.
    assert (Hres : forall data label id,
               resolve_dataset fs dataset = Ok (data, label, id) ->
               create_cluster_problem fs dataset k i (MetricName s)
               = Raise (UnknownMetric s)).
    { intros data label id Hd. unfold cluster_base.create_cluster_problem.
      rewrite Hd. cbn [bind]. rewrite Hm. reflexivity. }
    assert (Herr : forall e,
               resolve_dataset fs dataset = Raise e ->
               create_cluster_problem fs dataset k i (MetricName s) = Raise e).
    { intros e Hd. unfold cluster_base.create_cluster_problem.
      rewrite Hd. reflexivity. }
    repeat split.
    + destruct (resolve_dataset fs dataset) as [[[data label] id]|e] eqn:Hd.
      * eexists. eapply Hres. reflexivity.
      * exists e. apply Herr. reflexivity.
    + exact Hres.
    + exact Herr.
    + intros a. unfold cluster_base.create_cluster_problem.
      cbn [cluster_base.resolve_dataset bind]. rewrite Hm. reflexivity.
  - intros H. destruct (resolve_metric_known _ H) as [f [Hg Hm]].
    exists f. repeat split; [exact Hg|exact Hm|].
    unfold cluster_base.create_cluster_problem.
    destruct (resolve_dataset fs dataset) as [[[data label] id]|e];
      [|reflexivity].
    cbn [bind]. rewrite Hm. reflexivity.
Qed.

(** C7: a successful call on a dataset name [s].  If [s.txt] exists in the
    working directory, the table is what the comma-delimited reading of
    that file gives, and the problem carries no catalog id.  Otherwise [s]
    resolves to a catalog id, the table is read from [s.txt] in the
    benchmark-data directory, and the problem carries that id.  In both
    cases the objective and the retransform are those of the problem built
    from the table itself. *)
Theorem dataset_name_resolution
    (fs : filesystem) (s : string) (k i : Z) (error_metric : metric_ref)
    (problem : Problem) (rt : list float -> result (list (list float))) :
  create_cluster_problem fs (DatasetName s) k i error_metric
  = Ok (problem, rt) ->
  if path_exists fs (s ++ ".txt")
  then exists data p,
         loadtxt fs (s ++ ".txt") "," = Ok data /\
         create_cluster_problem fs (DatasetArray data) k i error_metric
         = Ok (p, rt) /\
         function problem = function p /\
         problem_id (meta_data problem) = None
  else exists n data p,
         get_problem_id s = Ok (Some n) /\
         In (n, lower s) CLUSTER_BASELINE_DATASETS /\
         loadtxt fs (benchmark_dir ++ "/" ++ s ++ ".txt") "," = Ok data /\
         create_cluster_problem fs (DatasetArray data) k i error_metric
         = Ok (p, rt) /\
         function problem = function p /\
         problem_id (meta_data problem) = Some n.
Proof.
  intros H.
  destruct (create_cluster_problem_ok_inv _ _ _ _ _ _ _ H)
    as (data & label & id & f & mn & mx & dmin & dmax &
        Hd & Hm & Hmn & Htn & Hmx & Htx & Hpr).
  assert (Harr : exists p,
             create_cluster_problem fs (DatasetArray data) k i error_metric
             = Ok (p, rt) /\ function problem = function p).
  { unfold cluster_base.create_cluster_problem.
    cbn [cluster_base.resolve_dataset bind].
    rewrite Hm; cbn [bind]. rewrite Hmn; cbn [bind]. rewrite Htn; cbn [bind].
    rewrite Hmx; cbn [bind]. rewrite Htx; cbn [bind].
    inversion Hpr; subst problem rt.
    eexists; split; [reflexivity|]. destruct id; reflexivity. }
  destruct Harr as [p [Hp Hf]].
  cbn [cluster_base.resolve_dataset] in Hd.
  destruct (path_exists fs (s ++ ".txt")).
  - destruct (loadtxt fs (s ++ ".txt") ",") as [t|e] eqn:Hl;
      cbn [bind] in Hd; [|discriminate].
    inversion Hd; subst t label id.
    exists data, p. repeat split; try assumption.
    inversion Hpr; reflexivity.
  - destruct (get_problem_id s) as [r|e] eqn:Hid;
      cbn [bind] in Hd; [|discriminate].
    destruct (loadtxt fs (benchmark_dir ++ "/" ++ s ++ ".txt") ",")
      as [t|e] eqn:Hl; cbn [bind] in Hd; [|discriminate].
    inversion Hd; subst t label id.
    destruct (get_problem_id_ok _ _ Hid) as [n [Hr Hin]]. subst r.
    exists n, data, p. repeat split; try assumption.
    inversion Hpr; reflexivity.
Qed.

End ResolutionProperties.

(** ** The end-to-end example *)

Lemma Qc_square_nonneg (x : Qc) : (0 <= x * x)%Qc.
Proof.
  unfold Qcle, Qcmult. cbn [this Q2Qc]. rewrite !Qred_correct. nra.
Qed.

Ltac qc_const := apply Qc_is_canon; reflexivity.

Ltac qc_nonzero :=
  let H := fresh in
  intros H; apply (f_equal this) in H; vm_compute in H; discriminate.

(** Equality of computed arrays, entry by entry. *)
Ltac array_eq :=
  repeat match goal with
         | |- Ok _ = Ok _ => apply f_equal
         | |- cons _ _ = cons _ _ => apply f_equal2
         | |- Fin _ = Fin _ => apply f_equal; qc_const
         | |- nil = nil => reflexivity
         end.

Lemma q0_zero : Sample.q 0 = 0%Qc.
Proof. qc_const. Qed.

Lemma q1_one : Sample.q 1 = 1%Qc.
Proof. qc_const. Qed.

Lemma half_div : Sample.half = (1 / (1 + 1))%Qc.
Proof. qc_const. Qed.

Lemma third_div : Sample.third = (1 / (1 + 1 + 1))%Qc.
Proof. qc_const. Qed.

Lemma three_sum : Q2Qc (inject_Z (Z.of_nat 3)) = (1 + 1 + 1)%Qc.
Proof. qc_const. Qed.

Lemma two_nonzero : (1 + 1)%Qc <> 0%Qc.
Proof. intros H. apply (f_equal this) in H. discriminate. Qed.

Lemma three_nonzero : (1 + 1 + 1)%Qc <> 0%Qc.
Proof. intros H. apply (f_equal this) in H. discriminate. Qed.

Lemma line_data_min : np_min Sample.line_data = Ok [Sample.q 0; Sample.q 0].
Proof. reflexivity. Qed.

Lemma line_data_max : np_max Sample.line_data = Ok [Sample.q 4; Sample.q 4].
Proof. reflexivity. Qed.

Lemma line_data_normalized :
  normalize [Sample.q 0; Sample.q 0] [Sample.q 4; Sample.q 4] Sample.line_data
  = [[Fin (Sample.q 0); Fin (Sample.q 0)];
     [Fin Sample.half; Fin Sample.half];
     [Fin (Sample.q 1); Fin (Sample.q 1)]].
Proof.
  vm_compute. array_eq.
Qed.

(** The objective of the example at a center [(a, b)], in closed form. *)
Lemma line_data_objective (a b : Qc) :
  obj_func mse_euclidean
    [[Fin (Sample.q 0); Fin (Sample.q 0)];
     [Fin Sample.half; Fin Sample.half];
     [Fin (Sample.q 1); Fin (Sample.q 1)]]
    1 Sample.line_data [Fin a; Fin b]
  = Ok (Fin (Sample.third
             + ((a - Sample.half) * (a - Sample.half)
                + (b - Sample.half) * (b - Sample.half)))%Qc).
Proof.
  unfold obj_func.
  change (reshape 1 (Z.of_nat (ncols Sample.line_data)) [Fin a; Fin b])
    with (Ok [[Fin a; Fin b]]).
  cbv [bind mse_euclidean traverse nearest fold_left sq_dist map2 sub add opp
       mul mean div length].
  rewrite three_sum, divq_nonzero by exact three_nonzero.
  rewrite q0_zero, q1_one, half_div, third_div.
  do 2 f_equal. field. split; [exact two_nonzero|exact three_nonzero].
Qed.

Section EndToEnd.

Variable CLUSTER_METRICS : list (string * metric).
Variable CLUSTER_BASELINE_DATASETS : list (Z * string).

Local Abbreviation create_cluster_problem :=
  (create_cluster_problem CLUSTER_METRICS CLUSTER_BASELINE_DATASETS).

(** C8: the dataset [[0,0],[2,2],[4,4]] with k = 1.  The column minima are
    0 and the maxima 4, and the normalised rows are (0,0), (1/2,1/2) and
    (1,1).  The objective at [1/2, 1/2] is 1/3, the mean squared distance
    of the three points to that center, and no center gives less.  The
    retransform of [1/2, 1/2] is [[2, 2]]. *)
Theorem end_to_end_example (fs : filesystem) (i : Z) :
  dict_get String.eqb CLUSTER_METRICS "mse_euclidean" = Some mse_euclidean ->
  np_min Sample.line_data = Ok [Sample.q 0; Sample.q 0] /\
  np_max Sample.line_data = Ok [Sample.q 4; Sample.q 4] /\
  normalize [Sample.q 0; Sample.q 0] [Sample.q 4; Sample.q 4] Sample.line_data
  = [[Fin (Sample.q 0); Fin (Sample.q 0)];
     [Fin Sample.half; Fin Sample.half];
     [Fin (Sample.q 1); Fin (Sample.q 1)]] /\
  exists problem retransform,
    create_cluster_problem fs (DatasetArray Sample.line_data) 1 i
      (MetricName "mse_euclidean")
    = Ok (problem, retransform) /\
    function problem [Fin Sample.half; Fin Sample.half]
    = Ok (Fin Sample.third) /\
    (forall a b : Qc,
       exists v, function problem [Fin a; Fin b] = Ok (Fin v) /\
                 (Sample.third <= v)%Qc) /\
    retransform [Fin Sample.half; Fin Sample.half]
    = Ok [[Fin (Sample.q 2); Fin (Sample.q 2)]].
Proof.
  intros Hreg.
  split; [exact line_data_min|]. split; [exact line_data_max|].
  split; [exact line_data_normalized|].
  assert (Hhas : dict_has String.eqb CLUSTER_METRICS "mse_euclidean" = true).
  { apply dict_has_get. exists mse_euclidean. exact Hreg. }
  unfold cluster_base.create_cluster_problem.
  cbn [resolve_dataset resolve_metric bind]. rewrite Hhas, Hreg. cbn [bind].
  rewrite line_data_min, line_data_max. cbn [bind].
  change (tile [Sample.q 0; Sample.q 0] 1) with (Ok [Sample.q 0; Sample.q 0]).
  change (tile [Sample.q 4; Sample.q 4] 1) with (Ok [Sample.q 4; Sample.q 4]).
  cbn [bind]. rewrite line_data_normalized.
  do 2 eexists. split; [reflexivity|].
  cbn [function wrap_problem]. split; [|split].
  - rewrite line_data_objective. apply f_equal, f_equal.
    rewrite half_div, third_div. field. repeat split; qc_nonzero.
  - intros a b. rewrite line_data_objective.
    eexists. split; [reflexivity|].
    rewrite <- (Qcplus_0_r Sample.third) at 1.
    apply Qcplus_le_compat; [apply Qcle_refl|].
    rewrite <- (Qcplus_0_r 0).
    apply Qcplus_le_compat; apply Qc_square_nonneg.
  - vm_compute. array_eq.
Qed.

End EndToEnd.

(** ** A constant feature *)

Lemma add_nan_r (x : float) : add x NaN = NaN.
Proof. destruct x; reflexivity. Qed.

Lemma minimum_nan_r (x : float) : minimum x NaN = NaN.
Proof. destruct x; reflexivity. Qed.

Lemma fold_add_nan_acc (l : list float) : fold_left add l NaN = NaN.
Proof. induction l as [|y l IH]; simpl; auto. Qed.

Lemma fold_add_nan (l : list float) :
  forall a, In NaN l -> fold_left add l a = NaN.
Proof.
  induction l as [|y l IH]; simpl; intros a H; [contradiction|].
  destruct H as [H|H].
  - subst y. rewrite add_nan_r. apply fold_add_nan_acc.
  - apply IH; exact H.
Qed.

Lemma nth_error_map2 {A B C : Type} (f : A -> B -> C) :
  forall (xs : list A) (ys : list B) (j : nat) (a : A) (b : B),
    nth_error xs j = Some a -> nth_error ys j = Some b ->
    nth_error (map2 f xs ys) j = Some (f a b).
Proof.
  induction xs as [|x xs IH]; intros [|y ys] [|j] a b Ha Hb;
    simpl in *; try discriminate.
  - congruence.
  - eapply IH; eassumption.
Qed.

Lemma nth_error_defined {A : Type} (l : list A) (j : nat) :
  (j < length l)%nat -> exists a, nth_error l j = Some a.
Proof.
  intros H. destruct (nth_error l j) eqn:E; [eexists; reflexivity|].
  apply nth_error_None in E. lia.
Qed.

Lemma sq_dist_nan (p c : list float) (j : nat) :
  nth_error p j = Some NaN -> (j < length c)%nat -> sq_dist p c = NaN.
Proof.
  intros Hp Hc. destruct (nth_error_defined _ Hc) as [b Hb].
  unfold sq_dist. apply fold_add_nan.
  apply nth_error_In with (n := j).
  rewrite (nth_error_map2 _ _ _ _ Hp Hb). reflexivity.
Qed.

Lemma nearest_nan (centers : list (list float)) (p : list float) (j : nat) :
  centers <> [] ->
  Forall (fun c => (j < length c)%nat) centers ->
  nth_error p j = Some NaN ->
  nearest centers p = Ok NaN.
Proof.
  intros Hne Hall Hp. destruct centers as [|c cs]; [contradiction|].
  inversion Hall as [|? ? Hc Hcs]; subst. simpl.
  rewrite (sq_dist_nan _ _ Hp Hc). f_equal.
  clear Hall Hne Hc. induction Hcs as [|c' cs Hc' Hcs IH]; simpl; auto.
Qed.

Lemma traverse_nearest_nan (centers : list (list float)) (j : nat)
    (data : list (list float)) :
  centers <> [] ->
  Forall (fun c => (j < length c)%nat) centers ->
  Forall (fun p => nth_error p j = Some NaN) data ->
  traverse (nearest centers) data = Ok (repeat NaN (length data)).
Proof.
  intros Hne Hall Hdata.
  induction Hdata as [|p data Hp Hdata IH]; simpl; [reflexivity|].
  rewrite (@nearest_nan centers p j Hne Hall Hp), IH. reflexivity.
Qed.

Lemma mean_nan (n : nat) : mean (repeat NaN (S n)) = NaN.
Proof.
  unfold mean. simpl fold_left. rewrite fold_add_nan_acc. reflexivity.
Qed.

Lemma rows_of_is_matrix {A : Type} (r c : nat) :
  forall x : list A,
    length x = (r * c)%nat -> is_matrix r c (rows_of r c x).
Proof.
  induction r as [|r IH]; intros x Hx; simpl.
  - split; [reflexivity|constructor].
  - destruct (IH (skipn c x)) as [Hl Hall].
    { rewrite length_skipn. lia. }
    split; [simpl; congruence|].
    constructor; [|exact Hall].
    rewrite length_firstn. lia.
Qed.

Lemma fold_map2_nth {A : Type} (f : A -> A -> A) (c : A) (j : nat) :
  f c c = c ->
  forall (rest : list (list A)) (row : list A),
    nth_error row j = Some c ->
    Forall (fun r => nth_error r j = Some c) rest ->
    nth_error (fold_left (map2 f) rest row) j = Some c.
Proof.
  intros Hf. induction rest as [|r rest IH]; simpl; intros row Hrow Hall.
  - exact Hrow.
  - inversion Hall; subst. apply IH; [|assumption].
    rewrite (nth_error_map2 f _ _ _ Hrow H1). congruence.
Qed.

Lemma Qcmin_same (c : Qc) : Qcmin c c = c.
Proof. unfold Qcmin. destruct (c ?= c)%Qc; reflexivity. Qed.

Lemma Qcmax_same (c : Qc) : Qcmax c c = c.
Proof. unfold Qcmax. destruct (c ?= c)%Qc; reflexivity. Qed.

Lemma divq_zero_zero (c : Qc) : divq (c - c) (c - c) = NaN.
Proof.
  replace (c - c)%Qc with 0%Qc by ring. reflexivity.
Qed.

(** The normalised column of a constant feature holds [NaN] in every row. *)
Lemma normalize_constant_column (data : list (list Qc)) (mn mx : list Qc)
    (j : nat) (c : Qc) :
  nth_error mn j = Some c -> nth_error mx j = Some c ->
  Forall (fun row => nth_error row j = Some c) data ->
  Forall (fun row => nth_error row j = Some NaN) (normalize mn mx data).
Proof.
  intros Hmn Hmx Hdata. unfold normalize. apply Forall_map.
  eapply Forall_impl; [|exact Hdata]. cbv beta. intros row Hrow.
  rewrite (nth_error_map2 divq _ _ _
             (nth_error_map2 Qcminus _ _ _ Hrow Hmn)
             (nth_error_map2 Qcminus _ _ _ Hmx Hmn)).
  rewrite divq_zero_zero. reflexivity.
Qed.

Section ConstantFeature.

Variable CLUSTER_METRICS : list (string * metric).
Variable CLUSTER_BASELINE_DATASETS : list (Z * string).

Local Abbreviation create_cluster_problem :=
  (create_cluster_problem CLUSTER_METRICS CLUSTER_BASELINE_DATASETS).

(** C2, what the code does instead: a dataset with a constant feature is
    not rejected.  The call returns a problem; the normalised column of
    that feature is [NaN] in every row, and with [mse_euclidean] the
    objective is [NaN] at every point of the search space. *)
Theorem constant_feature_gives_nan
    (fs : filesystem) (data : list (list Qc)) (N F j : nat) (k i : Z)
    (f : metric) :
  is_matrix (S N) F data ->
  (j < F)%nat ->
  constant_column data j ->
  (1 <= k)%Z ->
  exists problem rt mn mx,
    create_cluster_problem fs (DatasetArray data) k i (MetricCallable f)
    = Ok (problem, rt) /\
    np_min data = Ok mn /\
    np_max data = Ok mx /\
    Forall (fun row => nth_error row j = Some NaN) (normalize mn mx data) /\
    (f = mse_euclidean ->
     forall x : list float,
       length x = (Z.to_nat k * F)%nat -> function problem x = Ok NaN).
Proof.
  intros Hdata Hj [c Hc] Hk.
  destruct data as [|row rest]; [destruct Hdata; discriminate|].
  pose proof Hdata as [Hlen Hrows].
  inversion Hc as [|? ? Hrow Hrest]; subst.
  set (mn := fold_left (map2 Qcmin) rest row).
  set (mx := fold_left (map2 Qcmax) rest row).
  assert (Hmn : nth_error mn j = Some c)
    by (apply fold_map2_nth; auto using Qcmin_same).
  assert (Hmx : nth_error mx j = Some c)
    by (apply fold_map2_nth; auto using Qcmax_same).
  pose proof (@normalize_constant_column (row :: rest) mn mx j c Hmn Hmx Hc)
    as Hnan.
  exists (wrap_problem
            (obj_func f (normalize mn mx (row :: rest)) k (row :: rest))
            ("Cluster_custom_k" ++ str k) MIN REAL 0%Qc 1%Qc i
            (k * Z.of_nat (ncols (row :: rest)))),
         (retransform k (concat (repeat mn (Z.to_nat k)))
                        (concat (repeat mx (Z.to_nat k)))),
         mn, mx.
  split; [|split; [reflexivity|split; [reflexivity|split; [exact Hnan|]]]].
  - unfold cluster_base.create_cluster_problem.
    cbn [resolve_dataset resolve_metric bind np_min np_max reduce_axis0].
    fold mn. fold mx.
    rewrite (tile_ok mn), (tile_ok mx) by lia. reflexivity.
  - intros -> x Hx. cbn [function wrap_problem]. unfold obj_func.
    assert (HF : ncols (row :: rest) = F)
      by (inversion Hrows; subst; reflexivity).
    rewrite HF. unfold reshape.
    destruct (Z.ltb_spec k 0); [lia|].
    destruct (Z.ltb_spec (Z.of_nat F) 0); [lia|]. cbn [orb].
    destruct (Z.eqb_spec (Z.of_nat (length x)) (k * Z.of_nat F)); [|lia].
    rewrite Nat2Z.id. cbn [bind].
    destruct (rows_of_is_matrix (Z.to_nat k) F x Hx) as [Hcl Hcall].
    unfold mse_euclidean.
    rewrite (@traverse_nearest_nan (rows_of (Z.to_nat k) F x) j).
    + cbn [bind]. unfold normalize. rewrite length_map. simpl length.
      rewrite mean_nan. reflexivity.
    + intros E. rewrite E in Hcl. simpl in Hcl. lia.
    + eapply Forall_impl; [|exact Hcall]. cbv beta. intros r Hr. lia.
    + exact Hnan.
Qed.

End ConstantFeature.

(** ** The download of the benchmark data *)

Section Download.

Variable CLUSTER_METRICS : list (string * metric).
Variable CLUSTER_BASELINE_DATASETS : list (Z * string).
Variable BASELINE_K_DIMENTIONS : list (string * list Z).

Local Abbreviation load_problems :=
  (load_problems CLUSTER_METRICS CLUSTER_BASELINE_DATASETS
     BASELINE_K_DIMENTIONS).

Lemma makedirs_existing (fs : filesystem) (p : string) :
  isdir fs p = true -> makedirs fs p = Ok fs.
Proof.
  unfold isdir, makedirs. destruct (fs p) as [[|parse]|];
    try discriminate; reflexivity.
Qed.

Lemma makedirs_missing (fs : filesystem) (p : string) :
  path_exists fs p = false ->
  exists fs', makedirs fs p = Ok fs' /\ isdir fs' p = true.
Proof.
  unfold path_exists, makedirs. destruct (fs p); [discriminate|]. intros _.
  eexists; split; [reflexivity|].
  unfold isdir. rewrite String.eqb_refl. reflexivity.
Qed.

(** With the warning on, an existing directory makes the call a no-op
    but for the warning. *)
Lemma download_skipped_with_warn (w : world) :
  isdir (files w) benchmark_dir = true ->
  exists msg,
    download_benchmark_datasets true w = (Ok tt, emit (Warned msg) w).
Proof.
  intros H. unfold download_benchmark_datasets. rewrite H. cbn [andb].
  eexists; reflexivity.
Qed.

(** A missing directory is created and the archive is unpacked into it,
    whatever [warn] is. *)
Lemma download_populates_missing (warn : bool) (w : world)
    (members : list (string * node)) :
  path_exists (files w) benchmark_dir = false ->
  remote w download_url = Ok members ->
  exists fs msg,
    makedirs (files w) benchmark_dir = Ok fs /\
    isdir fs benchmark_dir = true /\
    fst (download_benchmark_datasets warn w) = Ok tt /\
    files (snd (download_benchmark_datasets warn w))
    = extractall members benchmark_dir fs /\
    trace (snd (download_benchmark_datasets warn w))
    = ExtractAll benchmark_dir :: UrlOpen download_url :: Printed msg
        :: trace w.
Proof.
  intros Hmiss Hnet.
  destruct (makedirs_missing _ _ Hmiss) as [fs [Hmk Hdir]].
  assert (Hno : isdir (files w) benchmark_dir = false).
  { unfold isdir. unfold path_exists in Hmiss.
    destruct (files w benchmark_dir); [discriminate|reflexivity]. }
  exists fs. eexists. split; [exact Hmk|]. split; [exact Hdir|].
  unfold download_benchmark_datasets. rewrite Hno. cbn [andb].
  rewrite Hmk. cbn [remote emit set_files]. rewrite Hnet.
  repeat split.
Qed.

(** C3, where the code departs from it: called without the warning, as
    [load_problems] calls it, the routine does not stop at an existing
    directory.  It opens the URL again, and when the archive arrives it
    unpacks it over the directory. *)
Theorem download_repeated_without_warn (w : world) :
  isdir (files w) benchmark_dir = true ->
  (exists evs,
     trace (snd (download_benchmark_datasets false w))
     = (evs ++ trace w)%list /\
     In (UrlOpen download_url) evs) /\
  (forall members,
     remote w download_url = Ok members ->
     fst (download_benchmark_datasets false w) = Ok tt /\
     files (snd (download_benchmark_datasets false w))
     = extractall members benchmark_dir (files w) /\
     exists msg,
       trace (snd (download_benchmark_datasets false w))
       = ExtractAll benchmark_dir :: UrlOpen download_url :: Printed msg
           :: trace w) /\
  trace (snd (load_problems w))
  = trace (snd (download_benchmark_datasets false w)).
Proof.
  intros Hdir.
  assert (E : download_benchmark_datasets false w
              = let w1 := emit (UrlOpen download_url)
                            (emit (Printed ("Downloading static folder from "
                                            ++ download_url ++ " to "
                                            ++ benchmark_dir))
                               (set_files (files w) w)) in
                match remote w download_url with
                | Raise e => (Raise e, w1)
                | Ok members =>
                    (Ok tt,
                     emit (ExtractAll benchmark_dir)
                       (set_files
                          (extractall members benchmark_dir (files w)) w1))
                end).
  { unfold download_benchmark_datasets. rewrite Hdir. cbn [andb].
    rewrite (makedirs_existing _ _ Hdir). reflexivity. }
  split; [|split].
  - rewrite E. cbv zeta.
    destruct (remote w download_url) as [members|e]; cbn [snd trace emit set_files].
    + eexists [_; _; _]. split; [reflexivity|]. right; left; reflexivity.
    + eexists [_; _]. split; [reflexivity|]. left; reflexivity.
  - intros members Hnet. rewrite E. cbv zeta. rewrite Hnet.
    cbn [fst snd files trace emit set_files].
    split; [reflexivity|]. split; [reflexivity|]. eexists; reflexivity.
  - unfold cluster_base.load_problems.
    destruct (download_benchmark_datasets false w) as [[u|e] w']; reflexivity.
Qed.

End Download.

(** ** Instances on the sample inputs *)


Lemma constant_feature_gives_nan_witness :
  exists problem rt mn mx,
    create_cluster_problem Sample.registry Sample.catalog Sample.no_files
      (DatasetArray Sample.flat_data) 1 1 (MetricCallable mse_euclidean)
    = Ok (problem, rt) /\
    np_min Sample.flat_data = Ok mn /\
    np_max Sample.flat_data = Ok mx /\
    Forall (fun row => nth_error row 0 = Some NaN)
      (normalize mn mx Sample.flat_data) /\
    (mse_euclidean = mse_euclidean ->
     forall x : list float,
       length x = (Z.to_nat 1 * 2)%nat -> function problem x = Ok NaN).
Proof.
  apply (@constant_feature_gives_nan Sample.registry Sample.catalog
           Sample.no_files Sample.flat_data 1 2 0 1 1 mse_euclidean).
  - split; [reflexivity|repeat constructor].
  - lia.
  - exists (Sample.q 1). repeat constructor.
  - lia.
Defined.

Lemma download_repeated_without_warn_witness :
  In (UrlOpen download_url)
    (trace (snd (download_benchmark_datasets false
                   (Sample.online Sample.bench_files)))) /\
  trace (snd (load_problems Sample.registry Sample.catalog Sample.k_values
                (Sample.online Sample.bench_files)))
  = trace (snd (download_benchmark_datasets false
                  (Sample.online Sample.bench_files))).
Proof.
  destruct (@download_repeated_without_warn Sample.registry Sample.catalog
              Sample.k_values (Sample.online Sample.bench_files) eq_refl)
    as [[evs [Htrace Hin]] [_ Hload]].
  split; [|exact Hload].
  rewrite Htrace. apply in_or_app. left. exact Hin.
Defined.

Lemma problem_metadata_witness :
  exists data id,
    resolve_dataset Sample.catalog Sample.no_files
      (DatasetArray Sample.line_data)
    = Ok (data, "custom", id) /\
    name (meta_data (Sample.problem_of "custom")) = "Cluster_custom_k2" /\
    n_variables (meta_data (Sample.problem_of "custom"))
    = (2 * Z.of_nat (ncols data))%Z /\
    lb (Sample.problem_of "custom")
    = repeat 0%Qc (Z.to_nat (2 * Z.of_nat (ncols data))) /\
    ub (Sample.problem_of "custom")
    = repeat 1%Qc (Z.to_nat (2 * Z.of_nat (ncols data))) /\
    optimization_type (meta_data (Sample.problem_of "custom")) = MIN /\
    instance (meta_data (Sample.problem_of "custom")) = 7%Z.
Proof.
  apply (@problem_metadata Sample.registry Sample.catalog Sample.no_files
           (DatasetArray Sample.line_data) 2 7 (MetricName "mse_euclidean")
           (Sample.problem_of "custom") Sample.line_retransform).
  reflexivity.
Defined.

(** C5 as stated fails: with a dataset name that neither names a file nor
    a catalog entry, an unregistered metric name is not reported, the
    dataset error is. *)
Lemma unknown_metric_behind_dataset_error :
  dict_has String.eqb Sample.registry "bogus" = false /\
  create_cluster_problem Sample.registry Sample.catalog Sample.no_files
    (DatasetName "nosuch") 2 1 (MetricName "bogus")
  = Raise (UnknownDatasetName "nosuch") /\
  create_cluster_problem Sample.registry Sample.catalog Sample.no_files
    (DatasetName "nosuch") 2 1 (MetricName "bogus")
  <> Raise (UnknownMetric "bogus").
Proof.
  split; [reflexivity|]. split; [reflexivity|].
  intros H. vm_compute in H. discriminate H.
Qed.

Lemma unknown_metric_fails_witness :
  create_cluster_problem Sample.registry Sample.catalog Sample.local_files
    (DatasetName "points") 2 1 (MetricName "bogus")
  = Raise (UnknownMetric "bogus") /\
  create_cluster_problem Sample.registry Sample.catalog Sample.local_files
    (DatasetName "points") 2 1 (MetricName "mse_euclidean")
  = create_cluster_problem Sample.registry Sample.catalog Sample.local_files
      (DatasetName "points") 2 1 (MetricCallable mse_euclidean).
Proof.
  split.
  - destruct (@unknown_metric_fails Sample.registry Sample.catalog
                Sample.local_files (DatasetName "points") 2 1 "bogus")
      as [Hunknown _].
    destruct (Hunknown eq_refl) as [_ [Hresolved _]].
    apply (Hresolved Sample.line_data "points" None). reflexivity.
  - destruct (@unknown_metric_fails Sample.registry Sample.catalog
                Sample.local_files (DatasetName "points") 2 1 "mse_euclidean")
      as [_ Hknown].
    destruct (Hknown eq_refl) as [f [Hget [_ Hsame]]].
    vm_compute in Hget. inversion Hget; subst f. exact Hsame.
Defined.

Lemma get_problem_delegates_witness :
  get_problem Sample.registry Sample.catalog Sample.bench_files
    (FidInt 5) 1 2
  = Raise (UnknownDatasetId 5) /\
  exists dataset,
    dict_get Z.eqb Sample.catalog 1%Z = Some dataset /\
    get_problem Sample.registry Sample.catalog Sample.bench_files
      (FidName "IRIS") 1 2
    = create_cluster_problem Sample.registry Sample.catalog Sample.bench_files
        (DatasetName dataset) 2 1 (MetricCallable mse_euclidean).
Proof.
  destruct (@get_problem_delegates Sample.registry Sample.catalog
              mse_euclidean Sample.bench_files 1 2 eq_refl)
    as [Hmiss [_ Hname]].
  split.
  - apply Hmiss. reflexivity.
  - apply (Hname "IRIS" 1%Z). reflexivity.
Defined.

Lemma dataset_name_resolution_witness :
  (exists data p,
     loadtxt Sample.local_files "points.txt" "," = Ok data /\
     create_cluster_problem Sample.registry Sample.catalog Sample.local_files
       (DatasetArray data) 2 7 (MetricName "mse_euclidean")
     = Ok (p, Sample.line_retransform) /\
     function (Sample.problem_of "points") = function p /\
     problem_id (meta_data (Sample.problem_of "points")) = None) /\
  (exists n data p,
     get_problem_id Sample.catalog "iris" = Ok (Some n) /\
     In (n, "iris") Sample.catalog /\
     loadtxt Sample.bench_files "banchmark_datasets/iris.txt" "," = Ok data /\
     create_cluster_problem Sample.registry Sample.catalog Sample.bench_files
       (DatasetArray data) 2 7 (MetricName "mse_euclidean")
     = Ok (p, Sample.line_retransform) /\
     function (set_id (Sample.problem_of "iris") 1) = function p /\
     problem_id (meta_data (set_id (Sample.problem_of "iris") 1)) = Some n).
Proof.
  split.
  - exact (@dataset_name_resolution Sample.registry Sample.catalog
             Sample.local_files "points" 2 7 (MetricName "mse_euclidean")
             (Sample.problem_of "points") Sample.line_retransform eq_refl).
  - exact (@dataset_name_resolution Sample.registry Sample.catalog
             Sample.bench_files "iris" 2 7 (MetricName "mse_euclidean")
             (set_id (Sample.problem_of "iris") 1) Sample.line_retransform
             eq_refl).
Defined.

Lemma end_to_end_example_witness :
  exists problem retransform,
    create_cluster_problem Sample.registry Sample.catalog Sample.no_files
      (DatasetArray Sample.line_data) 1 1 (MetricName "mse_euclidean")
    = Ok (problem, retransform) /\
    function problem [Fin Sample.half; Fin Sample.half]
    = Ok (Fin Sample.third) /\
    (forall a b : Qc,
       exists v, function problem [Fin a; Fin b] = Ok (Fin v) /\
                 (Sample.third <= v)%Qc) /\
    retransform [Fin Sample.half; Fin Sample.half]
    = Ok [[Fin (Sample.q 2); Fin (Sample.q 2)]].
Proof.
  destruct (@end_to_end_example Sample.registry Sample.catalog
              Sample.no_files 1 eq_refl) as [_ [_ [_ H]]].
  exact H.
Defined.


(** * Further properties of the module *)

(** ** The normalised dataset *)





Section ColumnReduction.

Variable f : Qc -> Qc -> Qc.
Variable below : Qc -> Qc -> Prop.
Hypothesis below_trans : forall a b c, below a b -> below b c -> below a c.
Hypothesis below_refl : forall a, below a a.
Hypothesis f_below_l : forall a b, below (f a b) a.
Hypothesis f_below_r : forall a b, below (f a b) b.


End ColumnReduction.







(** ** The objective closure *)


Section ObjectiveProperties.

Variable CLUSTER_METRICS : list (string * metric).
Variable CLUSTER_BASELINE_DATASETS : list (Z * string).

Local Abbreviation create_cluster_problem :=
  (create_cluster_problem CLUSTER_METRICS CLUSTER_BASELINE_DATASETS).
Local Abbreviation resolve_dataset :=
  (resolve_dataset CLUSTER_BASELINE_DATASETS).
Local Abbreviation resolve_metric := (resolve_metric CLUSTER_METRICS).


End ObjectiveProperties.


(** ** The retransform closure *)

Lemma reshape_rows_ok {A : Type} (k : Z) (c : nat) (l : list A) :
  (1 <= k)%Z -> length l = (Z.to_nat k * c)%nat ->
  reshape_rows k l = Ok (rows_of (Z.to_nat k) c l).
Proof.
  intros Hk Hl. unfold reshape_rows.
  destruct (Z.leb_spec k 0); [lia|].
  assert (E : Z.of_nat (length l) = (Z.of_nat c * k)%Z) by lia.
  rewrite E, Z.mod_mul, Z.div_mul, Nat2Z.id by lia. reflexivity.
Qed.

Lemma map2_repeat {A B C : Type} (f : A -> B -> C) (t : A) (ys : list B) :
  map2 f (repeat t (length ys)) ys = map (f t) ys.
Proof.
  induction ys as [|y ys IH]; simpl; [reflexivity|]. rewrite IH. reflexivity.
Qed.







(** With operands of one length, [retransform] works entry by entry. *)
Lemma retransform_same_length (k : Z) (dmin dmax : list Qc) (X : list float) :
  length dmax = length dmin -> length X = length dmin ->
  retransform k dmin dmax X
  = reshape_rows k
      (map2 add (map2 mul X (map Fin (map2 Qcminus dmax dmin)))
                (map Fin dmin)).
Proof.
  intros Hmax HX. unfold retransform.
  assert (Ld : length (map Fin (map2 Qcminus dmax dmin)) = length dmin)
    by (rewrite length_map, map2_length; congruence).
  rewrite broadcast_same by congruence.
  cbn [bind].
  rewrite broadcast_same
    by (rewrite map2_length, length_map; congruence).
  reflexivity.
Qed.




Section RetransformProperties.

Variable CLUSTER_METRICS : list (string * metric).
Variable CLUSTER_BASELINE_DATASETS : list (Z * string).

Local Abbreviation create_cluster_problem :=
  (create_cluster_problem CLUSTER_METRICS CLUSTER_BASELINE_DATASETS).
Local Abbreviation resolve_dataset :=
  (resolve_dataset CLUSTER_BASELINE_DATASETS).

(** The retransform of a built problem, spelled out. *)
Lemma create_retransform_inv fs dataset k i error_metric problem rt
    data label id (N F : nat) :
  create_cluster_problem fs dataset k i error_metric = Ok (problem, rt) ->
  resolve_dataset fs dataset = Ok (data, label, id) ->
  is_matrix (S N) F data ->
  (0 <= k)%Z ->
  exists mn mx,
    np_min data = Ok mn /\ np_max data = Ok mx /\
    length mn = F /\ length mx = F /\
    rt = retransform k (concat (repeat mn (Z.to_nat k)))
                       (concat (repeat mx (Z.to_nat k))).
Proof.
  intros H Hd Hdata Hk.
  destruct (create_cluster_problem_ok_inv _ _ _ _ _ _ _ H)
    as (data' & label' & id' & f & mn & mx & dmin & dmax &
        Hd' & _ & Hmn & Htn & Hmx & Htx & Hpr).
  rewrite Hd in Hd'. inversion Hd'; subst data' label' id'.
  rewrite tile_ok in Htn, Htx by exact Hk.
  inversion Htn; subst dmin. inversion Htx; subst dmax.
  exists mn, mx. repeat split; try assumption.
  - exact (@reduce_axis0_length _ Qcmin data (S N) F mn Hdata Hmn).
  - exact (@reduce_axis0_length _ Qcmax data (S N) F mx Hdata Hmx).
  - inversion Hpr; reflexivity.
Qed.

(** X3: for k >= 1 the retransform turns every flat vector of length
    k * F into an array of k rows and F columns; a vector of another
    length, unless it has one element or k * F is one, is refused by the
    broadcast. *)
Theorem retransform_shape
    (fs : filesystem) (dataset : dataset_ref) (k i : Z)
    (error_metric : metric_ref) (problem : Problem)
    (rt : list float -> result (list (list float)))
    (data : list (list Qc)) (label : string) (id : option Z) (N F : nat) :
  create_cluster_problem fs dataset k i error_metric = Ok (problem, rt) ->
  resolve_dataset fs dataset = Ok (data, label, id) ->
  is_matrix (S N) F data ->
  (1 <= k)%Z ->
  (forall X : list float,
     length X = (Z.to_nat k * F)%nat ->
     exists M, rt X = Ok M /\ is_matrix (Z.to_nat k) F M) /\
  (forall X : list float,
     length X <> (Z.to_nat k * F)%nat ->
     length X <> 1%nat -> (Z.to_nat k * F)%nat <> 1%nat ->
     rt X = Raise (NumpyError "operands could not be broadcast together")).
Proof.
  intros H Hd Hdata Hk.
  destruct (@create_retransform_inv fs dataset k i error_metric problem rt
              data label id N F H Hd Hdata ltac:(lia))
    as (mn & mx & _ & _ & Lmn & Lmx & ->).
  assert (Ln : length (concat (repeat mn (Z.to_nat k)))
               = (Z.to_nat k * F)%nat)
    by (rewrite concat_repeat_length; congruence).
  assert (Lx : length (concat (repeat mx (Z.to_nat k)))
               = (Z.to_nat k * F)%nat)
    by (rewrite concat_repeat_length; congruence).
  split.
  - intros X HX.
    rewrite retransform_same_length by congruence.
    assert (Lr : length (map2 add
                           (map2 mul X
                              (map Fin
                                 (map2 Qcminus
                                    (concat (repeat mx (Z.to_nat k)))
                                    (concat (repeat mn (Z.to_nat k))))))
                           (map Fin (concat (repeat mn (Z.to_nat k)))))
                 = (Z.to_nat k * F)%nat).
    { rewrite map2_length; rewrite map2_length;
        rewrite ?length_map, ?map2_length; congruence. }
    rewrite (@reshape_rows_ok _ k F _ Hk Lr).
    eexists; split; [reflexivity|]. apply rows_of_is_matrix. exact Lr.
  - intros X HX H1 Hn1.
    assert (Ld : length (map Fin
                           (map2 Qcminus (concat (repeat mx (Z.to_nat k)))
                                         (concat (repeat mn (Z.to_nat k)))))
                 = (Z.to_nat k * F)%nat)
      by (rewrite length_map, map2_length; congruence).
    unfold retransform, broadcast at 1. rewrite Ld.
    destruct (Nat.eqb_spec (length X) (Z.to_nat k * F)); [contradiction|].
    destruct X as [|x [|x' X]]; [| simpl in H1; lia |].
    + destruct (map Fin _) as [|d [|d' ds]]; simpl in Ld; try reflexivity.
      lia.
    + destruct (map Fin _) as [|d [|d' ds]]; simpl in Ld; try reflexivity.
      lia.
Qed.


End RetransformProperties.





Section RetransformInverse.

Variable CLUSTER_METRICS : list (string * metric).
Variable CLUSTER_BASELINE_DATASETS : list (Z * string).

Local Abbreviation create_cluster_problem :=
  (create_cluster_problem CLUSTER_METRICS CLUSTER_BASELINE_DATASETS).
Local Abbreviation resolve_dataset :=
  (resolve_dataset CLUSTER_BASELINE_DATASETS).

(** X5: the retransform does not check the length of its argument: for
    k >= 1 a vector with a single entry is broadcast, and gives what the
    vector of k * F copies of that entry gives. *)
Theorem retransform_broadcasts_single_entry
    (fs : filesystem) (dataset : dataset_ref) (k i : Z)
    (error_metric : metric_ref) (problem : Problem)
    (rt : list float -> result (list (list float)))
    (data : list (list Qc)) (label : string) (id : option Z) (N F : nat)
    (t : float) :
  create_cluster_problem fs dataset k i error_metric = Ok (problem, rt) ->
  resolve_dataset fs dataset = Ok (data, label, id) ->
  is_matrix (S N) F data ->
  (1 <= k)%Z ->
  rt [t] = rt (repeat t (Z.to_nat k * F)).
Proof.
  intros H Hd Hdata Hk.
  destruct (@create_retransform_inv CLUSTER_METRICS CLUSTER_BASELINE_DATASETS
              fs dataset k i error_metric problem rt
              data label id N F H Hd Hdata ltac:(lia))
    as (mn & mx & _ & _ & Lmn & Lmx & ->).
  set (n := Z.to_nat k).
  assert (Ld : length (map Fin (map2 Qcminus (concat (repeat mx n))
                                             (concat (repeat mn n))))
               = (n * F)%nat)
    by (rewrite length_map, map2_length, concat_repeat_length;
        rewrite ?concat_repeat_length; congruence).
  destruct (Nat.eq_dec (n * F) 1) as [E|E]; [rewrite E; reflexivity|].
  assert (Hb : forall D : list float,
             length D = (n * F)%nat ->
             broadcast mul [t] D = broadcast mul (repeat t (n * F)) D).
  { intros D LD.
    rewrite (broadcast_same mul (repeat t (n * F)) D)
      by (rewrite repeat_length; congruence).
    rewrite <- LD, map2_repeat.
    unfold broadcast.
    destruct (Nat.eqb_spec (length [t]) (length D)) as [E1|_];
      [simpl in E1; congruence|reflexivity]. }
  unfold retransform. rewrite (Hb _ Ld). reflexivity.
Qed.


(** X7: the retransform, the name, the dimension, the catalog id and the
    bounds of a built problem depend on the dataset and on k alone: two
    successful calls that differ in the metric and in the instance number
    agree on all of them. *)
Theorem retransform_independent_of_metric
    (fs : filesystem) (dataset : dataset_ref) (k i1 i2 : Z)
    (m1 m2 : metric_ref) (p1 p2 : Problem)
    (rt1 rt2 : list float -> result (list (list float))) :
  create_cluster_problem fs dataset k i1 m1 = Ok (p1, rt1) ->
  create_cluster_problem fs dataset k i2 m2 = Ok (p2, rt2) ->
  rt1 = rt2 /\
  name (meta_data p1) = name (meta_data p2) /\
  n_variables (meta_data p1) = n_variables (meta_data p2) /\
  problem_id (meta_data p1) = problem_id (meta_data p2) /\
  lb p1 = lb p2 /\ ub p1 = ub p2.
Proof.
  intros H1 H2.
  destruct (create_cluster_problem_ok_inv _ _ _ _ _ _ _ H1)
    as (data & label & id & f1 & mn & mx & dmin & dmax &
        Hd & _ & Hmn & Htn & Hmx & Htx & Hpr1).
  destruct (create_cluster_problem_ok_inv _ _ _ _ _ _ _ H2)
    as (data' & label' & id' & f2 & mn' & mx' & dmin' & dmax' &
        Hd' & _ & Hmn' & Htn' & Hmx' & Htx' & Hpr2).
  rewrite Hd in Hd'. inversion Hd'; subst data' label' id'.
  rewrite Hmn in Hmn'. inversion Hmn'; subst mn'.
  rewrite Hmx in Hmx'. inversion Hmx'; subst mx'.
  rewrite Htn in Htn'. inversion Htn'; subst dmin'.
  rewrite Htx in Htx'. inversion Htx'; subst dmax'.
  inversion Hpr1; subst p1 rt1. inversion Hpr2; subst p2 rt2.
  destruct id; repeat split; reflexivity.
Qed.

End RetransformInverse.

Lemma retransform_shape_witness :
  (forall X : list float,
     length X = (Z.to_nat 2 * 2)%nat ->
     exists M, Sample.line_retransform X = Ok M /\
               is_matrix (Z.to_nat 2) 2 M) /\
  (forall X : list float,
     length X <> (Z.to_nat 2 * 2)%nat ->
     length X <> 1%nat -> (Z.to_nat 2 * 2)%nat <> 1%nat ->
     Sample.line_retransform X
     = Raise (NumpyError "operands could not be broadcast together")).
Proof.
  apply (@retransform_shape Sample.registry Sample.catalog Sample.no_files
           (DatasetArray Sample.line_data) 2 7 (MetricName "mse_euclidean")
           (Sample.problem_of "custom") Sample.line_retransform
           Sample.line_data "custom" None 2 2).
  - reflexivity.
  - reflexivity.
  - split; [reflexivity|repeat constructor].
  - lia.
Defined.


Lemma retransform_broadcasts_single_entry_witness :
  Sample.line_retransform [Fin Sample.half]
  = Sample.line_retransform (repeat (Fin Sample.half) (Z.to_nat 2 * 2)).
Proof.
  apply (@retransform_broadcasts_single_entry Sample.registry Sample.catalog
           Sample.no_files (DatasetArray Sample.line_data) 2 7
           (MetricName "mse_euclidean") (Sample.problem_of "custom")
           Sample.line_retransform Sample.line_data "custom" None 2 2
           (Fin Sample.half)).
  - reflexivity.
  - reflexivity.
  - split; [reflexivity|repeat constructor].
  - lia.
Defined.


Lemma retransform_independent_of_metric_witness :
  Sample.line_retransform = Sample.line_retransform /\
  name (meta_data (Sample.problem_of "custom"))
  = name (meta_data Variants.other_problem) /\
  n_variables (meta_data (Sample.problem_of "custom"))
  = n_variables (meta_data Variants.other_problem) /\
  problem_id (meta_data (Sample.problem_of "custom"))
  = problem_id (meta_data Variants.other_problem) /\
  lb (Sample.problem_of "custom") = lb Variants.other_problem /\
  ub (Sample.problem_of "custom") = ub Variants.other_problem.
Proof.
  apply (@retransform_independent_of_metric Sample.registry Sample.catalog
           Sample.no_files (DatasetArray Sample.line_data) 2 7 3
           (MetricName "mse_euclidean") (MetricCallable Variants.nan_metric)
           (Sample.problem_of "custom") Variants.other_problem
           Sample.line_retransform Sample.line_retransform).
  - reflexivity.
  - reflexivity.
Defined.

(** ** The catalog, both ways *)

Lemma values_unique {K V : Type} (l : list (K * V)) (a b : K) (v : V) :
  NoDup (map snd l) -> In (a, v) l -> In (b, v) l -> a = b.
Proof.
  induction l as [|[k w] l IH]; simpl; intros Hnd Ha Hb; [contradiction|].
  inversion Hnd as [|? ? Hnotin Hnd']; subst.
  destruct Ha as [Ha|Ha], Hb as [Hb|Hb].
  - congruence.
  - inversion Ha; subst. exfalso. apply Hnotin.
    apply (in_map snd) in Hb. exact Hb.
  - inversion Hb; subst. exfalso. apply Hnotin.
    apply (in_map snd) in Ha. exact Ha.
  - apply IH; assumption.
Qed.


Lemma get_problem_id_of_stored (catalog : list (Z * string)) (n : Z)
    (d : string) :
  NoDup (map snd catalog) -> In (n, d) catalog -> lower d = d ->
  get_problem_id catalog d = Ok (Some n).
Proof.
  intros Hnd Hin Hlow. unfold get_problem_id. rewrite Hlow.
  assert (Hv : In d (map snd catalog)) by (apply (in_map snd) in Hin; exact Hin).
  destruct (first_key_found _ _ Hv) as [k Hk].
  apply existsb_eqb_In in Hv. rewrite Hv, Hk.
  rewrite (@values_unique _ _ catalog k n d Hnd (first_key_In _ _ Hk) Hin).
  reflexivity.
Qed.

Section CatalogRoundTrip.

Variable CLUSTER_METRICS : list (string * metric).
Variable CLUSTER_BASELINE_DATASETS : list (Z * string).

Local Abbreviation get_problem_id :=
  (get_problem_id CLUSTER_BASELINE_DATASETS).
Local Abbreviation get_problem :=
  (get_problem CLUSTER_METRICS CLUSTER_BASELINE_DATASETS).



(** X10: a file in the working directory takes precedence also when the
    dataset is asked for by its catalog id: if [d.txt] exists there, where
    [d] is the name stored under the id, a successful [get_problem] builds
    the problem from that file and attaches no catalog id. *)
Theorem get_problem_prefers_local_file
    (fs : filesystem) (n i k : Z) (d : string) (problem : Problem)
    (rt : list float -> result (list (list float))) :
  dict_get Z.eqb CLUSTER_BASELINE_DATASETS n = Some d ->
  path_exists fs (d ++ ".txt") = true ->
  get_problem fs (FidInt n) i k = Ok (problem, rt) ->
  problem_id (meta_data problem) = None /\
  exists data,
    loadtxt fs (d ++ ".txt") "," = Ok data /\
    n_variables (meta_data problem) = (k * Z.of_nat (ncols data))%Z.
Proof.
  intros Hget Hex H.
  unfold cluster_base.get_problem in H. cbn [bind] in H.
  assert (Hhas : dict_has Z.eqb CLUSTER_BASELINE_DATASETS n = true)
    by (apply dict_has_get; exists d; exact Hget).
  rewrite Hhas, Hget in H. cbn [negb] in H.
  destruct (dict_get String.eqb CLUSTER_METRICS "mse_euclidean") as [m|];
    [|discriminate].
  destruct (create_cluster_problem_ok_inv _ _ _ _ _ _ _ H)
    as (data & label & id & f & mn & mx & dmin & dmax &
        Hd & _ & _ & _ & _ & _ & Hpr).
  cbn [resolve_dataset] in Hd. rewrite Hex in Hd.
  destruct (loadtxt fs (d ++ ".txt") ",") as [t|e]; cbn [bind] in Hd;
    [|discriminate].
  inversion Hd; subst t label id. inversion Hpr; subst problem rt.
  split; [reflexivity|]. exists data. split; reflexivity.
Qed.

(** X11: without such a file, in a catalog of distinct names, a
    successful [get_problem] on an id whose name is stored in lowercase
    reads [d.txt] in the benchmark-data directory, names the problem after
    [d] and attaches the id it was called with. *)
Theorem get_problem_attaches_id
    (fs : filesystem) (n i k : Z) (d : string) (problem : Problem)
    (rt : list float -> result (list (list float))) :
  NoDup (map snd CLUSTER_BASELINE_DATASETS) ->
  dict_get Z.eqb CLUSTER_BASELINE_DATASETS n = Some d ->
  lower d = d ->
  path_exists fs (d ++ ".txt") = false ->
  get_problem fs (FidInt n) i k = Ok (problem, rt) ->
  problem_id (meta_data problem) = Some n /\
  name (meta_data problem) = "Cluster_" ++ d ++ "_k" ++ str k /\
  exists data,
    loadtxt fs (benchmark_dir ++ "/" ++ d ++ ".txt") "," = Ok data /\
    n_variables (meta_data problem) = (k * Z.of_nat (ncols data))%Z.
Proof.
  intros Hvals Hget Hlow Hex H.
  unfold cluster_base.get_problem in H. cbn [bind] in H.
  assert (Hhas : dict_has Z.eqb CLUSTER_BASELINE_DATASETS n = true)
    by (apply dict_has_get; exists d; exact Hget).
  rewrite Hhas, Hget in H. cbn [negb] in H.
  destruct (dict_get String.eqb CLUSTER_METRICS "mse_euclidean") as [m|];
    [|discriminate].
  destruct (create_cluster_problem_ok_inv _ _ _ _ _ _ _ H)
    as (data & label & id & f & mn & mx & dmin & dmax &
        Hd & _ & _ & _ & _ & _ & Hpr).
  cbn [resolve_dataset] in Hd. rewrite Hex in Hd.
  rewrite (@get_problem_id_of_stored CLUSTER_BASELINE_DATASETS n d Hvals
             (@dict_get_In _ _ Z.eqb Z.eqb_eq _ _ _ Hget) Hlow) in Hd.
  cbn [bind] in Hd.
  destruct (loadtxt fs (benchmark_dir ++ "/" ++ d ++ ".txt") ",") as [t|e];
    cbn [bind] in Hd; [|discriminate].
  inversion Hd; subst t label id. inversion Hpr; subst problem rt.
  split; [reflexivity|]. split; [reflexivity|].
  exists data. split; reflexivity.
Qed.

End CatalogRoundTrip.


Lemma sample_catalog_names_distinct : NoDup (map snd Sample.catalog).
Proof.
  repeat constructor; simpl; intuition discriminate.
Qed.



Lemma get_problem_prefers_local_file_witness :
  problem_id (meta_data Variants.shadow_problem) = None /\
  exists data,
    loadtxt Offline.shadow_files "iris.txt" "," = Ok data /\
    n_variables (meta_data Variants.shadow_problem)
    = (2 * Z.of_nat (ncols data))%Z.
Proof.
  apply (@get_problem_prefers_local_file Sample.registry Sample.catalog
           Offline.shadow_files 1 7 2 "iris" Variants.shadow_problem
           Variants.shadow_retransform).
  - reflexivity.
  - reflexivity.
  - reflexivity.
Defined.

Lemma get_problem_attaches_id_witness :
  problem_id (meta_data (set_id (Sample.problem_of "iris") 1)) = Some 1%Z /\
  name (meta_data (set_id (Sample.problem_of "iris") 1)) = "Cluster_iris_k2" /\
  exists data,
    loadtxt Sample.bench_files "banchmark_datasets/iris.txt" "," = Ok data /\
    n_variables (meta_data (set_id (Sample.problem_of "iris") 1))
    = (2 * Z.of_nat (ncols data))%Z.
Proof.
  apply (@get_problem_attaches_id Sample.registry Sample.catalog
           Sample.bench_files 1 7 2 "iris"
           (set_id (Sample.problem_of "iris") 1) Sample.line_retransform).
  - exact sample_catalog_names_distinct.
  - reflexivity.
  - reflexivity.
  - reflexivity.
  - reflexivity.
Defined.

(** ** The download, call after call *)

Lemma string_length_append (a b : string) :
  String.length (a ++ b) = (String.length a + String.length b)%nat.
Proof.
  induction a as [|c a IH]; simpl; [reflexivity|]. rewrite IH. reflexivity.
Qed.

Lemma append_inj_l (a b c : string) : a ++ b = a ++ c -> b = c.
Proof.
  induction a as [|x a IH]; simpl; intros H; [exact H|].
  inversion H. apply IH. assumption.
Qed.

(** No member of the archive is written onto the directory itself. *)
Lemma member_path_not_target (target name : string) :
  String.eqb (target ++ "/" ++ name) target = false.
Proof.
  apply String.eqb_neq. intros H.
  apply (f_equal String.length) in H.
  rewrite string_length_append in H. simpl in H. lia.
Qed.

Lemma extractall_target (members : list (string * node)) (target : string)
    (fs : filesystem) :
  extractall members target fs target = fs target.
Proof.
  unfold extractall.
  assert (E : find (fun m => String.eqb (target ++ "/" ++ fst m) target)
                members = None).
  { induction members as [|m members IH]; cbn [find]; [reflexivity|].
    rewrite member_path_not_target. exact IH. }
  rewrite E. reflexivity.
Qed.

Lemma extractall_member (members : list (string * node)) (target : string)
    (fs : filesystem) (name : string) (nd : node) :
  NoDup (map fst members) -> In (name, nd) members ->
  extractall members target fs (target ++ "/" ++ name) = Some nd.
Proof.
  unfold extractall. induction members as [|[n' nd'] members IH];
    cbn [find fst snd map In]; intros Hnd Hin; [contradiction|].
  inversion Hnd as [|? ? Hnotin Hnd']; subst.
  destruct (String.eqb_spec (target ++ "/" ++ n') (target ++ "/" ++ name))
    as [E|E].
  - apply append_inj_l, append_inj_l in E. subst n'.
    destruct Hin as [Hin|Hin]; [inversion Hin; reflexivity|].
    exfalso. apply Hnotin. apply (in_map fst) in Hin. exact Hin.
  - destruct Hin as [Hin|Hin]; [inversion Hin; subst; contradiction|].
    apply IH; assumption.
Qed.

Lemma extractall_other (members : list (string * node)) (target : string)
    (fs : filesystem) (q : string) :
  (forall name, In name (map fst members) -> q <> target ++ "/" ++ name) ->
  extractall members target fs q = fs q.
Proof.
  unfold extractall. induction members as [|[n' nd'] members IH];
    cbn [find fst snd map In]; intros H; [reflexivity|].
  destruct (String.eqb_spec (target ++ "/" ++ n') q) as [E|E].
  - exfalso. apply (H n'); [left; reflexivity|symmetry; exact E].
  - apply IH. intros name Hin. apply H. right; exact Hin.
Qed.

Lemma makedirs_fresh (fs fs' : filesystem) (p : string) :
  path_exists fs p = false -> makedirs fs p = Ok fs' ->
  isdir fs' p = true /\ forall q, q <> p -> fs' q = fs q.
Proof.
  unfold path_exists, makedirs. destruct (fs p); [discriminate|].
  intros _ H. inversion H; subst fs'. split.
  - unfold isdir. rewrite String.eqb_refl. reflexivity.
  - intros q Hq. apply String.eqb_neq in Hq. rewrite Hq. reflexivity.
Qed.

(** The call on a world without the directory, spelled out. *)
Lemma download_fresh (warn : bool) (w : world) :
  path_exists (files w) benchmark_dir = false ->
  exists fs msg,
    makedirs (files w) benchmark_dir = Ok fs /\
    download_benchmark_datasets warn w
    = match remote w download_url with
      | Raise e =>
          (Raise e,
           World fs (remote w)
             (UrlOpen download_url :: Printed msg :: trace w))
      | Ok members =>
          (Ok tt,
           World (extractall members benchmark_dir fs) (remote w)
             (ExtractAll benchmark_dir :: UrlOpen download_url
                :: Printed msg :: trace w))
      end.
Proof.
  intros Hmiss.
  destruct (makedirs_missing _ _ Hmiss) as [fs [Hmk _]].
  assert (Hno : isdir (files w) benchmark_dir = false).
  { unfold isdir. unfold path_exists in Hmiss.
    destruct (files w benchmark_dir); [discriminate|reflexivity]. }
  exists fs. eexists. split; [exact Hmk|].
  unfold download_benchmark_datasets. rewrite Hno. cbn [andb].
  rewrite Hmk. cbn [remote emit set_files files trace].
  destruct (remote w download_url); reflexivity.
Qed.

(** X12: after a download into a directory that did not exist, every
    member of the archive, the names being distinct, is found under its
    name in the directory, every other path is as it was, and a second
    call with the warning on changes nothing and only warns. *)
Theorem download_populates_then_skips (warn : bool) (w : world)
    (members : list (string * node)) :
  path_exists (files w) benchmark_dir = false ->
  remote w download_url = Ok members ->
  NoDup (map fst members) ->
  let w1 := snd (download_benchmark_datasets warn w) in
  fst (download_benchmark_datasets warn w) = Ok tt /\
  isdir (files w1) benchmark_dir = true /\
  (forall name nd,
     In (name, nd) members ->
     files w1 (benchmark_dir ++ "/" ++ name) = Some nd) /\
  (forall q,
     q <> benchmark_dir ->
     (forall name, In name (map fst members) ->
                   q <> benchmark_dir ++ "/" ++ name) ->
     files w1 q = files w q) /\
  exists msg,
    download_benchmark_datasets true w1 = (Ok tt, emit (Warned msg) w1).
Proof.
  intros Hmiss Hnet Hnd.
  destruct (download_fresh warn w Hmiss) as (fs & msg & Hmk & E).
  rewrite Hnet in E. rewrite E. cbn [fst snd files].
  destruct (makedirs_fresh _ _ Hmiss Hmk) as [Hdir Hsame].
  assert (Hdir1 : isdir (extractall members benchmark_dir fs) benchmark_dir
                  = true).
  { unfold isdir. rewrite extractall_target. exact Hdir. }
  split; [reflexivity|]. split; [exact Hdir1|]. split; [|split].
  - intros name nd Hin. apply extractall_member; assumption.
  - intros q Hq Hnot. rewrite extractall_other by exact Hnot.
    apply Hsame. exact Hq.
  - unfold download_benchmark_datasets at 1. cbn [files].
    rewrite Hdir1. cbn [andb]. eexists; reflexivity.
Qed.


(** ** The bulk loader *)

Lemma dict_set_has {V : Type} (d : list (string * V)) (k : string) (v : V)
    (k' : string) :
  dict_has String.eqb (dict_set String.eqb d k v) k'
  = dict_has String.eqb d k' || String.eqb k k'.
Proof.
  unfold dict_has. induction d as [|[k0 v0] d IH]; simpl.
  - apply orb_comm.
  - destruct (String.eqb_spec k0 k) as [->|Hne]; simpl.
    + destruct (String.eqb k k'); simpl; [reflexivity|].
      rewrite orb_false_r. reflexivity.
    + rewrite IH. rewrite orb_assoc. reflexivity.
Qed.

Lemma map_snd_filter {A B : Type} (P : B -> bool) (l : list (A * B)) :
  map snd (filter (fun kv => P (snd kv)) l) = filter P (map snd l).
Proof.
  induction l as [|[a b] l IH]; simpl; [reflexivity|].
  destruct (P b); simpl; rewrite IH; reflexivity.
Qed.

Section LoaderProperties.

Variable CLUSTER_METRICS : list (string * metric).
Variable CLUSTER_BASELINE_DATASETS : list (Z * string).
Variable BASELINE_K_DIMENTIONS : list (string * list Z).

Local Abbreviation create_cluster_problem :=
  (create_cluster_problem CLUSTER_METRICS CLUSTER_BASELINE_DATASETS).
Local Abbreviation load_dataset :=
  (load_dataset CLUSTER_METRICS CLUSTER_BASELINE_DATASETS).
Local Abbreviation load_datasets :=
  (load_datasets CLUSTER_METRICS CLUSTER_BASELINE_DATASETS
     BASELINE_K_DIMENTIONS).
Local Abbreviation load_problems :=
  (load_problems CLUSTER_METRICS CLUSTER_BASELINE_DATASETS
     BASELINE_K_DIMENTIONS).

Lemma created_name fs d k i error_metric pr :
  create_cluster_problem fs (DatasetName d) k i error_metric = Ok pr ->
  name (meta_data (fst pr)) = "Cluster_" ++ d ++ "_k" ++ str k.
Proof.
  intros H.
  destruct (create_cluster_problem_ok_inv _ _ _ _ _ _ _ H)
    as (data & label & id & f & mn & mx & dmin & dmax &
        Hd & _ & _ & _ & _ & _ & Hpr).
  apply resolve_dataset_label in Hd. simpl in Hd. subst label pr.
  destruct id; reflexivity.
Qed.

Lemma load_dataset_keys fs d :
  forall ks ps ps',
    load_dataset fs d ks ps = Ok ps' ->
    forall key,
      dict_has String.eqb ps' key = true <->
      dict_has String.eqb ps key = true \/
      exists k, In k ks /\ key = "Cluster_" ++ d ++ "_k" ++ str k.
Proof.
  induction ks as [|k ks IH]; cbn [cluster_base.load_dataset]; intros ps ps' H key.
  - inversion H; subst. split; [auto|]. intros [Hk|[k [[] _]]]. exact Hk.
  - destruct (create_cluster_problem fs (DatasetName d) k 1
                (MetricName "mse_euclidean")) as [pr|e] eqn:Hc;
      cbn [bind] in H; [|discriminate].
    rewrite (IH _ _ H key), dict_set_has, (created_name _ _ _ _ _ Hc).
    rewrite orb_true_iff, String.eqb_eq. split.
    + intros [[Hk|Hk]|[k' [Hin Hk]]].
      * left; exact Hk.
      * right. exists k. split; [left; reflexivity|symmetry; exact Hk].
      * right. exists k'. split; [right; exact Hin|exact Hk].
    + intros [Hk|[k' [[->|Hin] Hk]]].
      * left; left; exact Hk.
      * left; right. symmetry; exact Hk.
      * right. exists k'. split; assumption.
Qed.

Lemma load_datasets_keys fs :
  forall ds ps ps',
    load_datasets fs ds ps = Ok ps' ->
    forall key,
      dict_has String.eqb ps' key = true <->
      dict_has String.eqb ps key = true \/
      exists d ks k,
        In d ds /\
        path_exists fs (benchmark_dir ++ "/" ++ d ++ ".txt") = true /\
        dict_get String.eqb BASELINE_K_DIMENTIONS d = Some ks /\
        In k ks /\ key = "Cluster_" ++ d ++ "_k" ++ str k.
Proof.
  induction ds as [|d ds IH]; cbn [cluster_base.load_datasets];
    intros ps ps' H key.
  - inversion H; subst. split; [auto|].
    intros [Hk|(d & ks & k & [] & _)]. exact Hk.
  - destruct (path_exists fs (benchmark_dir ++ "/" ++ d ++ ".txt")) eqn:Hp.
    + destruct (dict_get String.eqb BASELINE_K_DIMENTIONS d) as [ks|] eqn:Hk;
        [|discriminate].
      destruct (load_dataset fs d ks ps) as [ps1|e] eqn:Hl;
        cbn [bind] in H; [|discriminate].
      rewrite (IH _ _ H key), (load_dataset_keys _ _ _ _ Hl key). split.
      * intros [[Hin|[k [Hin Hkey]]]|(d' & ks' & k & Hin & Hrest)].
        -- left; exact Hin.
        -- right. exists d, ks, k.
           split; [left; reflexivity|]. split; [exact Hp|].
           split; [exact Hk|]. split; assumption.
        -- right. exists d', ks', k. split; [right; exact Hin|exact Hrest].
      * intros [Hin|(d' & ks' & k & [Hd|Hin] & Hp' & Hk' & Hin' & Hkey)].
        -- left; left; exact Hin.
        -- subst d'. rewrite Hk in Hk'. inversion Hk'; subst ks'.
           left; right. exists k. split; assumption.
        -- right. exists d', ks', k.
           split; [exact Hin|]. split; [exact Hp'|].
           split; [exact Hk'|]. split; assumption.
    + rewrite (IH _ _ H key). split.
      * intros [Hin|(d' & ks' & k & Hin & Hrest)]; [left; exact Hin|].
        right. exists d', ks', k. split; [right; exact Hin|exact Hrest].
      * intros [Hin|(d' & ks' & k & [Hd|Hin] & Hp' & Hrest)].
        -- left; exact Hin.
        -- subst d'. rewrite Hp in Hp'. discriminate.
        -- right. exists d', ks', k.
           split; [exact Hin|]. split; [exact Hp'|exact Hrest].
Qed.


(** X15: the names under which a successful [load_problems] files its
    problems are exactly the names "Cluster_{d}_k{k}" of the catalog
    datasets [d] whose file is listed in the benchmark-data directory
    after the download, with [k] among the cluster counts configured for
    [d]. *)
Theorem load_problems_keys (w : world) (problems : problems_dict) :
  fst (load_problems w) = Ok problems ->
  forall key : string,
    dict_has String.eqb problems key = true <->
    exists d ks k,
      In d (map snd CLUSTER_BASELINE_DATASETS) /\
      path_exists (files (snd (load_problems w)))
        (benchmark_dir ++ "/" ++ d ++ ".txt") = true /\
      dict_get String.eqb BASELINE_K_DIMENTIONS d = Some ks /\
      In k ks /\ key = "Cluster_" ++ d ++ "_k" ++ str k.
Proof.
  unfold cluster_base.load_problems.
  destruct (download_benchmark_datasets false w) as [[u|e] w1];
    cbn [fst snd]; [|discriminate].
  intros H key. rewrite (load_datasets_keys _ _ _ H key). split.
  - intros [Hk|Hk]; [discriminate|exact Hk].
  - intros Hk. right; exact Hk.
Qed.

End LoaderProperties.

Section WithoutMissing.

Variable P : string -> bool.

Lemma first_key_filter (d : string) :
  P d = true ->
  forall l : list (Z * string),
    first_key (filter (fun kv => P (snd kv)) l) d = first_key l d.
Proof.
  intros Hd. induction l as [|[k v] l IH]; [reflexivity|].
  cbn [filter snd first_key].
  destruct (P v) eqn:Hv; cbn [first_key].
  - rewrite IH. reflexivity.
  - destruct (String.eqb_spec v d) as [E|_]; [congruence|exact IH].
Qed.

Lemma existsb_filter (d : string) :
  P d = true ->
  forall l : list (Z * string),
    existsb (String.eqb d) (map snd (filter (fun kv => P (snd kv)) l))
    = existsb (String.eqb d) (map snd l).
Proof.
  intros Hd. induction l as [|[k v] l IH]; [reflexivity|].
  cbn [filter snd map existsb].
  destruct (P v) eqn:Hv; cbn [map existsb snd].
  - rewrite IH. reflexivity.
  - destruct (String.eqb_spec d v) as [E|_]; [congruence|exact IH].
Qed.

Lemma get_problem_id_filter (catalog : list (Z * string)) (s : string) :
  P (lower s) = true ->
  get_problem_id (filter (fun kv => P (snd kv)) catalog) s
  = get_problem_id catalog s.
Proof.
  intros H. unfold get_problem_id.
  rewrite existsb_filter, first_key_filter by exact H. reflexivity.
Qed.

Lemma create_cluster_problem_filter metrics (catalog : list (Z * string))
    (fs : filesystem) (d : string) (k i : Z) (m : metric_ref) :
  P (lower d) = true ->
  create_cluster_problem metrics (filter (fun kv => P (snd kv)) catalog)
    fs (DatasetName d) k i m
  = create_cluster_problem metrics catalog fs (DatasetName d) k i m.
Proof.
  intros H. unfold create_cluster_problem, resolve_dataset.
  rewrite get_problem_id_filter by exact H. reflexivity.
Qed.

Lemma load_dataset_filter metrics (catalog : list (Z * string))
    (fs : filesystem) (d : string) :
  P (lower d) = true ->
  forall (ks : list Z) (ps : problems_dict),
    load_dataset metrics (filter (fun kv => P (snd kv)) catalog) fs d ks ps
    = load_dataset metrics catalog fs d ks ps.
Proof.
  intros H. induction ks as [|k ks IH]; intros ps; [reflexivity|].
  cbn [load_dataset]. rewrite create_cluster_problem_filter by exact H.
  destruct (create_cluster_problem metrics catalog fs (DatasetName d) k 1
              (MetricName "mse_euclidean")); cbn [bind];
    [apply IH|reflexivity].
Qed.

End WithoutMissing.

(** With no dataset file in the directory the loops add nothing. *)
Lemma load_datasets_none metrics catalog k_values (fs : filesystem) :
  forall (ds : list string) (ps : problems_dict),
    (forall d, In d ds ->
       path_exists fs (benchmark_dir ++ "/" ++ d ++ ".txt") = false) ->
    load_datasets metrics catalog k_values fs ds ps = Ok ps.
Proof.
  induction ds as [|d ds IH]; intros ps H; [reflexivity|].
  cbn [load_datasets]. rewrite (H d) by (left; reflexivity).
  apply IH. intros d' Hin. apply H. right; exact Hin.
Qed.

(** X16: catalog datasets without a file in the benchmark-data directory
    are skipped silently.  With the names stored in lowercase, leaving
    them out of the catalog changes neither the mapping nor the exception
    that [load_problems] returns; and when no dataset has a file after a
    successful download, the result is the empty mapping. *)
Theorem load_problems_skips_missing
    (metrics : list (string * metric)) (catalog : list (Z * string))
    (k_values : list (string * list Z)) (w : world) :
  (forall d, In d (map snd catalog) -> lower d = d) ->
  fst (load_problems metrics
         (filter (fun kv =>
                    path_exists
                      (files (snd (download_benchmark_datasets false w)))
                      (benchmark_dir ++ "/" ++ snd kv ++ ".txt"))
            catalog)
         k_values w)
  = fst (load_problems metrics catalog k_values w) /\
  (fst (download_benchmark_datasets false w) = Ok tt ->
   (forall d, In d (map snd catalog) ->
      path_exists (files (snd (download_benchmark_datasets false w)))
        (benchmark_dir ++ "/" ++ d ++ ".txt") = false) ->
   fst (load_problems metrics catalog k_values w) = Ok []).
Proof.
  intros Hlow. unfold load_problems.
  destruct (download_benchmark_datasets false w) as [[u|e] w1];
    cbn [fst snd]; split; try reflexivity; try discriminate.
  - set (present := fun d : string =>
                      path_exists (files w1)
                        (benchmark_dir ++ "/" ++ d ++ ".txt")).
    change (load_datasets metrics
              (filter (fun kv => present (snd kv)) catalog) k_values
              (files w1)
              (map snd (filter (fun kv => present (snd kv)) catalog)) []
            = load_datasets metrics catalog k_values (files w1)
                (map snd catalog) []).
    rewrite (map_snd_filter present).
    assert (Hin : forall ds : list string,
               (forall d, In d ds -> lower d = d) ->
               forall ps,
                 load_datasets metrics
                   (filter (fun kv => present (snd kv)) catalog) k_values
                   (files w1) (filter present ds) ps
                 = load_datasets metrics catalog k_values (files w1) ds ps).
    { induction ds as [|d ds IH]; intros Hds ps; [reflexivity|].
      cbn [filter load_datasets]. fold (present d).
      destruct (present d) eqn:Hp.
      - cbn [load_datasets]. fold (present d). rewrite Hp.
        destruct (dict_get String.eqb k_values d) as [ks|]; [|reflexivity].
        rewrite (load_dataset_filter present metrics catalog (files w1) d)
          by (rewrite (Hds d) by (left; reflexivity); exact Hp).
        destruct (load_dataset metrics catalog (files w1) d ks ps);
          cbn [bind]; [|reflexivity].
        apply IH. intros d' Hd'. apply Hds. right; exact Hd'.
      - apply IH. intros d' Hd'. apply Hds. right; exact Hd'. }
    apply Hin. exact Hlow.
  - intros _ H. apply load_datasets_none. exact H.
Qed.

Lemma download_populates_then_skips_witness :
  files (snd (download_benchmark_datasets false
                (Sample.online Sample.no_files)))
    "banchmark_datasets/iris.txt"
  = Some (Sample.csv Sample.line_data) /\
  exists msg,
    download_benchmark_datasets true
      (snd (download_benchmark_datasets false (Sample.online Sample.no_files)))
    = (Ok tt,
       emit (Warned msg)
         (snd (download_benchmark_datasets false
                 (Sample.online Sample.no_files)))).
Proof.
  assert (Hnd : NoDup (map fst Sample.archive))
    by (repeat constructor; simpl; intuition discriminate).
  destruct (@download_populates_then_skips false
              (Sample.online Sample.no_files) Sample.archive
              eq_refl eq_refl Hnd)
    as (_ & _ & Hmember & _ & Hskip).
  split.
  - apply (Hmember "iris.txt"). left. reflexivity.
  - exact Hskip.
Defined.



Lemma load_problems_keys_witness :
  dict_has String.eqb Variants.loaded "Cluster_wine_k2" = true <->
  exists d ks k,
    In d (map snd Sample.catalog) /\
    path_exists
      (files (snd (load_problems Sample.registry Sample.catalog
                     Sample.k_values (Sample.online Sample.bench_files))))
      (benchmark_dir ++ "/" ++ d ++ ".txt") = true /\
    dict_get String.eqb Sample.k_values d = Some ks /\
    In k ks /\ "Cluster_wine_k2" = "Cluster_" ++ d ++ "_k" ++ str k.
Proof.
  apply (@load_problems_keys Sample.registry Sample.catalog Sample.k_values
           (Sample.online Sample.bench_files) Variants.loaded).
  reflexivity.
Defined.

Lemma load_problems_skips_missing_witness :
  fst (load_problems Sample.registry
         (filter (fun kv =>
                    path_exists
                      (files (snd (download_benchmark_datasets false
                                     (Sample.online Sample.bench_files))))
                      (benchmark_dir ++ "/" ++ snd kv ++ ".txt"))
            Sample.catalog)
         Sample.k_values (Sample.online Sample.bench_files))
  = fst (load_problems Sample.registry Sample.catalog Sample.k_values
           (Sample.online Sample.bench_files)).
Proof.
  apply (@load_problems_skips_missing Sample.registry Sample.catalog
           Sample.k_values (Sample.online Sample.bench_files)).
  intros d [<-|[<-|[]]]; reflexivity.
Defined.

(** ** The ends of the unit interval *)







(** ** Names, case and the entries of the mapping *)

Lemma dict_set_In {V : Type} (d : list (string * V)) (k : string) (v : V)
    (k' : string) (v' : V) :
  In (k', v') (dict_set String.eqb d k v) ->
  (k' = k /\ v' = v) \/ In (k', v') d.
Proof.
  induction d as [|[k0 v0] d IH]; simpl.
  - intros [H|[]]. inversion H. left; split; reflexivity.
  - destruct (String.eqb_spec k0 k) as [->|Hne]; simpl.
    + intros [H|H]; [inversion H; left; split; reflexivity|].
      right; right; exact H.
    + intros [H|H]; [right; left; exact H|].
      destruct (IH H) as [E|Hin]; [left; exact E|right; right; exact Hin].
Qed.

Section EntryProperties.

Variable CLUSTER_METRICS : list (string * metric).
Variable CLUSTER_BASELINE_DATASETS : list (Z * string).
Variable BASELINE_K_DIMENTIONS : list (string * list Z).

Local Abbreviation create_cluster_problem :=
  (create_cluster_problem CLUSTER_METRICS CLUSTER_BASELINE_DATASETS).
Local Abbreviation load_dataset :=
  (load_dataset CLUSTER_METRICS CLUSTER_BASELINE_DATASETS).
Local Abbreviation load_datasets :=
  (load_datasets CLUSTER_METRICS CLUSTER_BASELINE_DATASETS
     BASELINE_K_DIMENTIONS).
Local Abbreviation load_problems :=
  (load_problems CLUSTER_METRICS CLUSTER_BASELINE_DATASETS
     BASELINE_K_DIMENTIONS).

(** X18: the catalog is asked for the name in lowercase, the directory
    for the name as it was given.  A name that the catalog resolves, with
    no file of that very spelling in the working directory or in the
    benchmark-data directory, makes the builder raise the error of the
    missing file, whatever the metric is. *)
Theorem file_lookup_keeps_case
    (fs : filesystem) (s : string) (k i : Z) (error_metric : metric_ref) :
  In (lower s) (map snd CLUSTER_BASELINE_DATASETS) ->
  path_exists fs (s ++ ".txt") = false ->
  fs (benchmark_dir ++ "/" ++ s ++ ".txt") = None ->
  create_cluster_problem fs (DatasetName s) k i error_metric
  = Raise (OSError (benchmark_dir ++ "/" ++ s ++ ".txt")).
Proof.
  intros Hin Hcwd Hbench.
  unfold cluster_base.create_cluster_problem, cluster_base.resolve_dataset.
  rewrite Hcwd. unfold cluster_base.get_problem_id.
  apply existsb_eqb_In in Hin. rewrite Hin. cbn [bind].
  unfold loadtxt. rewrite Hbench. reflexivity.
Qed.

Lemma created_entry_ok fs d k pr :
  create_cluster_problem fs (DatasetName d) k 1 (MetricName "mse_euclidean")
  = Ok pr ->
  entry_ok (name (meta_data (fst pr)), pr).
Proof.
  intros H.
  destruct (create_cluster_problem_ok_inv _ _ _ _ _ _ _ H)
    as (data & label & id & f & mn & mx & dmin & dmax &
        _ & _ & _ & _ & _ & _ & Hpr).
  subst pr. unfold entry_ok. destruct id; repeat split.
Qed.

Lemma load_dataset_entries fs d :
  forall ks ps ps',
    load_dataset fs d ks ps = Ok ps' ->
    Forall entry_ok ps -> Forall entry_ok ps'.
Proof.
  induction ks as [|k ks IH]; cbn [cluster_base.load_dataset];
    intros ps ps' H Hps.
  - inversion H; subst. exact Hps.
  - destruct (create_cluster_problem fs (DatasetName d) k 1
                (MetricName "mse_euclidean")) as [pr|e] eqn:Hc;
      cbn [bind] in H; [|discriminate].
    apply (IH _ _ H). apply Forall_forall. intros [key v] Hin.
    destruct (dict_set_In _ _ _ _ _ Hin) as [[-> ->]|Hold].
    + apply created_entry_ok with (fs := fs) (d := d) (k := k). exact Hc.
    + rewrite Forall_forall in Hps. apply Hps. exact Hold.
Qed.

Lemma load_datasets_entries fs :
  forall ds ps ps',
    load_datasets fs ds ps = Ok ps' ->
    Forall entry_ok ps -> Forall entry_ok ps'.
Proof.
  induction ds as [|d ds IH]; cbn [cluster_base.load_datasets];
    intros ps ps' H Hps.
  - inversion H; subst. exact Hps.
  - destruct (path_exists fs (benchmark_dir ++ "/" ++ d ++ ".txt")).
    + destruct (dict_get String.eqb BASELINE_K_DIMENTIONS d) as [ks|];
        [|discriminate].
      destruct (load_dataset fs d ks ps) as [ps1|e] eqn:Hl;
        cbn [bind] in H; [|discriminate].
      apply (IH _ _ H). eapply load_dataset_entries; [exact Hl|exact Hps].
    + apply (IH _ _ H). exact Hps.
Qed.

(** X19: every entry of the mapping that [load_problems] returns is filed
    under the name of its own problem, and that problem is a minimisation
    problem with instance number 1. *)
Theorem load_problems_entries (w : world) (problems : problems_dict)
    (key : string) (problem : Problem)
    (rt : list float -> result (list (list float))) :
  fst (load_problems w) = Ok problems ->
  In (key, (problem, rt)) problems ->
  name (meta_data problem) = key /\
  instance (meta_data problem) = 1%Z /\
  optimization_type (meta_data problem) = MIN.
Proof.
  unfold cluster_base.load_problems.
  destruct (download_benchmark_datasets false w) as [[u|e] w1];
    cbn [fst]; [|discriminate].
  intros H Hin.
  pose proof (@load_datasets_entries _ _ _ _ H (Forall_nil _)) as Hall.
  rewrite Forall_forall in Hall. exact (Hall _ Hin).
Qed.

End EntryProperties.

Lemma file_lookup_keeps_case_witness :
  loadtxt Sample.bench_files "banchmark_datasets/iris.txt" ","
  = Ok Sample.line_data /\
  create_cluster_problem Sample.registry Sample.catalog Sample.bench_files
    (DatasetName "IRIS") 2 1 (MetricName "mse_euclidean")
  = Raise (OSError "banchmark_datasets/IRIS.txt").
Proof.
  split; [reflexivity|].
  apply (@file_lookup_keeps_case Sample.registry Sample.catalog
           Sample.bench_files "IRIS" 2 1 (MetricName "mse_euclidean")).
  - vm_compute. left. reflexivity.
  - reflexivity.
  - reflexivity.
Defined.

Lemma load_problems_entries_witness :
  name (meta_data (Variants.loaded_problem 3)) = "Cluster_iris_k3" /\
  instance (meta_data (Variants.loaded_problem 3)) = 1%Z /\
  optimization_type (meta_data (Variants.loaded_problem 3)) = MIN.
Proof.
  apply (@load_problems_entries Sample.registry Sample.catalog
           Sample.k_values (Sample.online Sample.bench_files)
           Variants.loaded "Cluster_iris_k3" (Variants.loaded_problem 3)
           (Variants.loaded_retransform 3)).
  - reflexivity.
  - right. left. reflexivity.
Defined.
